(** * yard.data: confusion matrices and threshold sweeps

    A shallow embedding of [src/yard/data.py] (Python 2) together with the
    properties of [BinaryConfusionMatrix] and [BinaryClassifierData] that
    the specification states.

    Conventions of the embedding:
    - Python [int] counts are [Z]; list indices and lengths are [nat].
    - A score is a real number, rendered as a canonical rational [Qc]; a
      threshold is a score or [float('inf')], the type [pyfloat].  NaN and
      infinite scores are outside the data model.  Rounding of
      floating-point division is not modelled: a quotient is the exact
      rational.
    - A dataset is built from a list of [(score, label)] pairs, a label
      being an integer ([True] is 1, [False] is 0).
    - A call that may raise returns [res A], either [Ok a] or [Raise e].
    - Confusion matrices are mutable objects.  They live in a [heap] and are
      passed around by reference ([ref]), so that aliasing between the
      generator's running matrix and the matrices it hands out is visible. *)

From Stdlib Require Import ZArith QArith Qcanon List Sorted Permutation Lia String.
From stdpp Require Import base list.

Set Default Goal Selector "!".

(** ** Exceptions *)

Inductive exn :=
| ValueError (msg : string)
| ZeroDivisionError
| AttributeError (name : string)
| IndexError
| TypeError.

Inductive res (A : Type) :=
| Ok (a : A)
| Raise (e : exn).
Arguments Ok {A} a.
Arguments Raise {A} e.

#[export] Instance res_ret : MRet res := fun A a => Ok a.
#[export] Instance res_bind : MBind res := fun A B f c =>
  match c with
  | Ok a => f a
  | Raise e => Raise e
  end.

(** ** Comparisons

    Python orders floats numerically, booleans with [False < True], and
    tuples lexicographically: the first position where the two tuples
    differ decides. *)

Inductive pyfloat :=
| Fin (q : Qc)
| Inf.

Definition Qc_ltb (x y : Qc) : bool :=
  match (x ?= y)%Qc with
  | Lt => true
  | _ => false
  end.

Definition float_ltb (a b : pyfloat) : bool :=
  match a, b with
  | Fin x, Fin y => Qc_ltb x y
  | Fin _, Inf => true
  | Inf, _ => false
  end.

(** [a >= b] *)
Definition float_geb (a b : pyfloat) : bool :=
  match a, b with
  | Fin x, Fin y => negb (Qc_ltb x y)
  | Fin _, Inf => false
  | Inf, _ => true
  end.

Definition bool_ltb (a b : bool) : bool := negb a && b.

#[export] Instance pyfloat_eq_dec : EqDecision pyfloat.
Proof. solve_decision. Defined.

(** A normalized data point, [(score, is_positive)]. *)
Definition point : Type := pyfloat * bool.

Definition tuple_ltb (a b : point) : bool :=
  if decide (a.1 = b.1) then bool_ltb a.2 b.2 else float_ltb a.1 b.1.

(** The part of the rich-comparison protocol that sorting and bisection
    rely on: [<] is a strict total order. *)
Class StrictTotal {A : Type} (ltb : A → A → bool) := {
  ltb_irrefl : ∀ x, ltb x x = false;
  ltb_trans : ∀ x y z, ltb x y = true → ltb y z = true → ltb x z = true;
  ltb_total : ∀ x y, ltb x y = false → ltb y x = false → x = y
}.

(** ** Built-ins: [sorted], [set], [bisect_left], [xrange] *)

Section Builtins.
Context {A : Type} (ltb : A → A → bool).

(** [a <= b] as Python's sort sees it: not [b < a]. *)
Definition leb_of (a b : A) : Prop := ltb b a = false.

Fixpoint insort (x : A) (l : list A) : list A :=
  match l with
  | [] => [x]
  | y :: l' => if ltb y x then y :: insort x l' else x :: y :: l'
  end.

(** [sorted(l)]: a stable sort that only uses [<]. *)
Definition sorted (l : list A) : list A := foldr insort [] l.

(** The loop of [bisect.bisect_left]:
    [while lo < hi: mid = (lo+hi)//2; if a[mid] < x: lo = mid+1 else: hi = mid].
    The first argument bounds [hi - lo], which shrinks at every turn. *)
Fixpoint bisect_loop (n : nat) (a : list A) (x : A) (lo hi : nat) : res nat :=
  match n with
  | O => Ok lo
  | S n' =>
      if (lo <? hi)%nat then
        let mid := ((lo + hi) / 2)%nat in
        match a !! mid with
        | Some y =>
            if ltb y x then bisect_loop n' a x (mid + 1) hi
            else bisect_loop n' a x lo mid
        | None => Raise IndexError
        end
      else Ok lo
  end.

Definition bisect_left (a : list A) (x : A) : res nat :=
  bisect_loop (length a) a x 0 (length a).
End Builtins.

(** [set(l)]: the distinct members of [l].  A Python set has no order of
    its own; every use below sorts it at once. *)
Definition set_ {A : Type} `{EqDecision A} (l : list A) : list A := remove_dups l.

(** [xrange(n)]: [0, 1, ..., n-1], empty when [n <= 0]. *)
Definition xrange (n : Z) : list Z := map Z.of_nat (seq 0 (Z.to_nat n)).

(** [l[i]] and [l[i] = v] with Python's indexing: a negative index counts
    from the end, an index out of range raises [IndexError]. *)
Definition py_index {A : Type} (l : list A) (i : Z) : option nat :=
  let n := Z.of_nat (length l) in
  if ((0 <=? i) && (i <? n))%Z then Some (Z.to_nat i)
  else if ((- n <=? i) && (i <? 0))%Z then Some (Z.to_nat (n + i))
  else None.

Definition getitem {A : Type} (l : list A) (i : Z) : res A :=
  match py_index l i ≫= (l !!.) with
  | Some v => Ok v
  | None => Raise IndexError
  end.

Definition setitem {A : Type} (l : list A) (i : Z) (v : A) : res (list A) :=
  match py_index l i with
  | Some k => Ok (<[k := v]> l)
  | None => Raise IndexError
  end.

(** ** [class BinaryConfusionMatrix] *)

Module BinaryConfusionMatrix.

(** [__slots__ = ("tp", "fp", "tn", "fn")]: an instance holds these four
    attributes and nothing else. *)
Record t := Make { tp : Z; fp : Z; tn : Z; fn : Z }.

Definition __slots__ : list string := ["tp"; "fp"; "tn"; "fn"]%string.

Definition grid := list (list Z).

(** What a caller may pass as [data]: nothing, a grid, or another matrix. *)
Inductive data_arg :=
| DataNone
| DataGrid (g : grid)
| DataMatrix (m : t).

(** The [data] property. *)
Definition data (self : t) : grid := [[tn self; fn self]; [fp self; tp self]].

(** The [data] setter on a grid.  [Ok] carries the object after the
    assignment; every [raise] comes before the first attribute is
    written, so [Raise] leaves the object as it was. *)
Definition set_data_grid (self : t) (data : grid) : res t :=
  if negb (length data =? 2)%nat then
    Raise (ValueError "confusion matrix must have 2 rows")
  else if existsb (λ row, negb (length row =? 2)%nat) data then
    Raise (ValueError "confusion matrix must have 2 columns")
  else
    match data with
    | [[tn_; fn_]; [fp_; tp_]] => Ok {| tp := tp_; fp := fp_; tn := tn_; fn := fn_ |}
    | _ => Raise (ValueError "unpack")
    end.

Definition set_data (self : t) (d : data_arg) : res t :=
  match d with
  | DataMatrix m => set_data_grid self (data m)
  | DataGrid g => set_data_grid self g
  | DataNone => Raise TypeError
  end.

(** The truth value that [if data:] tests: [None] and the empty list are
    false; a matrix defines neither [__nonzero__] nor [__len__] and is
    true. *)
Definition truth (d : data_arg) : bool :=
  match d with
  | DataNone => false
  | DataGrid [] => false
  | DataGrid (_ :: _) => true
  | DataMatrix _ => true
  end.

Definition __init__ (data : data_arg) (tp fp fn tn : Z) : res t :=
  let self := {| tp := tp; fp := fp; tn := tn; fn := fn |} in
  if truth data then set_data self data else Ok self.

(** [num / float(den)] *)
Definition float_div (num den : Z) : res Qc :=
  if (den =? 0)%Z then Raise ZeroDivisionError
  else Ok (Q2Qc (inject_Z num / inject_Z den)).

Definition fdr (self : t) : res Qc :=
  float_div (fp self) (fp self + tp self).

Definition fpr (self : t) : res Qc :=
  float_div (fp self) (fp self + tn self).

Definition precision (self : t) : res Qc :=
  match float_div (tp self) (tp self + fp self) with
  | Raise ZeroDivisionError => Ok (Q2Qc 1)
  | r => r
  end.

Definition accuracy (self : t) : res Qc :=
  let num := (tp self + tn self)%Z in
  let den := (num + fp self + fn self)%Z in
  float_div num den.

Definition fdn (self : t) : res Qc :=
  let num := (fn self + tn self)%Z in
  let den := (num + fp self + tp self)%Z in
  float_div num den.

Definition fdp (self : t) : res Qc :=
  let num := (fp self + tp self)%Z in
  let den := (num + fn self + tn self)%Z in
  float_div num den.

Definition npv (self : t) : res Qc :=
  float_div (tn self) (tn self + fn self).

Definition recall (self : t) : res Qc :=
  float_div (tp self) (tp self + fn self).

Definition tnr (self : t) : res Qc :=
  float_div (tn self) (fp self + tn self).

(** The aliases at the end of the class body. *)
Definition ppv := precision.
Definition sensitivity := recall.
Definition specificity := tnr.
Definition tpr := recall.

Definition __eq__ (self other : t) : bool :=
  ((tp self =? tp other) && (tn self =? tn other) &&
   (fp self =? fp other) && (fn self =? fn other))%Z.

(** Attribute lookup.  Besides the slots an instance sees what the
    class defines: the property [data], the methods and their aliases,
    and what [object] provides. *)
Inductive value :=
| VInt (z : Z)
| VGrid (g : grid)
| VBound (name : string).

Definition class_attributes : list string :=
  ["__init__"; "accuracy"; "fdn"; "fdp"; "fdr"; "fpr"; "f_score"; "mcc";
   "npv"; "odds_ratio"; "precision"; "recall"; "tnr"; "__eq__";
   "__getitem__"; "__repr__"; "__setitem__"; "ppv"; "sensitivity";
   "specificity"; "tpr"; "__slots__"; "__doc__"; "__module__";
   "__class__"; "__delattr__"; "__format__"; "__getattribute__";
   "__hash__"; "__new__"; "__reduce__"; "__reduce_ex__"; "__setattr__";
   "__sizeof__"; "__str__"; "__subclasshook__"]%string.

Definition getattr (self : t) (name : string) : res value :=
  if String.eqb name "tp" then Ok (VInt (tp self))
  else if String.eqb name "fp" then Ok (VInt (fp self))
  else if String.eqb name "tn" then Ok (VInt (tn self))
  else if String.eqb name "fn" then Ok (VInt (fn self))
  else if String.eqb name "data" then Ok (VGrid (data self))
  else if existsb (String.eqb name) class_attributes then Ok (VBound name)
  else Raise (AttributeError name).

Definition __getitem__ (self : t) (coords : Z * Z) : res Z :=
  let '(obs, exp) := coords in
  d ← getattr self "_data";
  match d with
  | VGrid g => row ← getitem g obs; getitem row exp
  | _ => Raise TypeError
  end.

(** [Ok] carries the object after the assignment. *)
Definition __setitem__ (self : t) (coords : Z * Z) (v : Z) : res t :=
  let '(obs, exp) := coords in
  d ← getattr self "_data";
  match d with
  | VGrid g => row ← getitem g obs; _ ← setitem row exp v; Ok self
  | _ => Raise TypeError
  end.

End BinaryConfusionMatrix.

(** ** The object store

    A matrix object is reached through a reference.  [alloc] is what a
    constructor call does, [modify] an assignment to attributes of an
    existing object. *)

Definition ref := nat.

Record heap := Heap { next_ref : ref; deref : ref → BinaryConfusionMatrix.t }.

Definition alloc (m : BinaryConfusionMatrix.t) (h : heap) : ref * heap :=
  (next_ref h,
   {| next_ref := S (next_ref h);
      deref := λ r, if decide (r = next_ref h) then m else deref h r |}).

Definition modify (f : BinaryConfusionMatrix.t → BinaryConfusionMatrix.t)
    (r : ref) (h : heap) : heap :=
  {| next_ref := next_ref h;
     deref := λ r', if decide (r' = r) then f (deref h r) else deref h r' |}.

(** ** [class BinaryClassifierData] *)

Module BinaryClassifierData.
Import BinaryConfusionMatrix.

(** The [title] attribute plays no part in the matrices and is left out. *)
Record t := Make {
  data : list point;
  total_positives : Z;
  total_negatives : Z
}.

Definition _normalize_point (p : Qc * Z) : point :=
  (Fin p.1, (0 <? p.2)%Z).

(** [sum(...)] over booleans. *)
Definition sum (l : list bool) : Z := foldl (λ acc b, (acc + Z.b2z b)%Z) 0%Z l.

(** [BinaryClassifierData(data)] for a list of [(score, label)] pairs. *)
Definition __init__ (data : list (Qc * Z)) : t :=
  let self_data := sorted tuple_ltb (map _normalize_point data) in
  let total_positives := sum (map (λ p, (0 <? p.2)%Z) data) in
  {| data := self_data;
     total_positives := total_positives;
     total_negatives := (Z.of_nat (length self_data) - total_positives)%Z |}.

Definition __len__ (self : t) : nat := length (data self).

(** [result[i][j]] and [result[i][j] = v] on the nested list. *)
Definition grid_get (result : grid) (i j : Z) : res Z :=
  row ← getitem result i; getitem row j.

Definition grid_set (result : grid) (i j : Z) (v : Z) : res grid :=
  row ← getitem result i; row' ← setitem row j v; setitem result i row'.

(** [for _, is_pos in rows: result[i][is_pos] += 1] *)
Fixpoint tally (rows : list point) (i : Z) (result : grid) : res grid :=
  match rows with
  | [] => Ok result
  | (_, is_pos) :: rows' =>
      v ← grid_get result i (Z.b2z is_pos);
      result ← grid_set result i (Z.b2z is_pos) (v + 1)%Z;
      tally rows' i result
  end.

Definition get_confusion_matrix (self : t) (threshold : pyfloat) : res BinaryConfusionMatrix.t :=
  let result := [[0; 0]; [0; 0]]%Z in
  idx ← bisect_left tuple_ltb (data self) (threshold, false);
  result ←
    (if (idx <=? length (data self) / 2)%nat then
       result ← tally (take idx (data self)) 0 result;
       v ← grid_get result 0 0;
       result ← grid_set result 1 0 (total_negatives self - v)%Z;
       v ← grid_get result 0 1;
       grid_set result 1 1 (total_positives self - v)%Z
     else
       result ← tally (drop idx (data self)) 1 result;
       v ← grid_get result 1 0;
       result ← grid_set result 0 0 (total_negatives self - v)%Z;
       v ← grid_get result 1 1;
       grid_set result 0 1 (total_positives self - v)%Z);
  BinaryConfusionMatrix.__init__ (DataGrid result) 0 0 0 0.

(** The [thresholds] argument of [iter_confusion_matrices]. *)
Inductive thresholds_arg :=
| ThresholdsNone
| ThresholdsInt (n : Z)
| ThresholdsIter (l : list pyfloat).

(** Lines 282-287: the thresholds the sweep will visit, before the
    closing [inf] is appended. *)
Definition resolve_thresholds (self : t) (thresholds : thresholds_arg) : list pyfloat :=
  let thresholds :=
    match thresholds with
    | ThresholdsNone => map (λ '(pred, _), pred) (data self)
    | ThresholdsInt n =>
        map (λ i, Fin (Q2Qc (inject_Z i / inject_Z n))) (xrange n)
    | ThresholdsIter l => l
    end in
  sorted float_ltb (set_ thresholds).

(** The effect of one turn of the [while] loop on the running matrix. *)
Definition move (is_pos : bool) (result : BinaryConfusionMatrix.t) : BinaryConfusionMatrix.t :=
  if is_pos then
    {| tp := tp result - 1; fp := fp result; tn := tn result; fn := fn result + 1 |}
  else
    {| tp := tp result; fp := fp result - 1; tn := tn result + 1; fn := fn result |}.

(** The [while row_idx < n] loop, run on [rows = self.data[row_idx:]].
    It assigns to the attributes of the object [result] refers to. *)
Fixpoint while_loop (rows : list point) (threshold : pyfloat)
    (row_idx : nat) (result : ref) (h : heap) : nat * heap :=
  match rows with
  | [] => (row_idx, h)
  | row :: rows' =>
      if float_geb row.1 threshold then (row_idx, h)
      else while_loop rows' threshold (S row_idx) result (modify (move row.2) result h)
  end.

(** The generator object: not yet started, suspended at a [yield] with
    the thresholds still to visit, or finished. *)
Inductive generator :=
| Created (thresholds : thresholds_arg)
| Suspended (thresholds : list pyfloat) (row_idx : nat) (result : ref)
| Finished.

Inductive signal :=
| Yield (threshold : pyfloat) (matrix : ref)
| StopIteration
| Raised (e : exn).

(** One call of [next] on the generator of [iter_confusion_matrices]. *)
Definition next (self : t) (g : generator) (h : heap) : signal * generator * heap :=
  match g with
  | Created thresholds =>
      if (__len__ self =? 0)%nat then (StopIteration, Finished, h)
      else
        let thresholds := resolve_thresholds self thresholds in
        match thresholds with
        | [] => (StopIteration, Finished, h)
        | _ :: _ =>
            match thresholds ++ [Inf] with
            | [] => (Raised IndexError, Finished, h)
            | threshold :: thresholds =>
                match get_confusion_matrix self threshold with
                | Raise e => (Raised e, Finished, h)
                | Ok m =>
                    let '(result, h) := alloc m h in
                    (Yield threshold result, Suspended thresholds 0 result, h)
                end
            end
        end
  | Suspended [] _ _ => (StopIteration, Finished, h)
  | Suspended (threshold :: thresholds) row_idx result =>
      let '(row_idx, h) :=
        while_loop (drop row_idx (data self)) threshold row_idx result h in
      match BinaryConfusionMatrix.__init__ (DataMatrix (deref h result)) 0 0 0 0 with
      | Raise e => (Raised e, Finished, h)
      | Ok m =>
          let '(copy, h) := alloc m h in
          (Yield threshold copy, Suspended thresholds row_idx result, h)
      end
  | Finished => (StopIteration, Finished, h)
  end.

(** What the consumer holds after a [yield]: the pair, and the store as
    it is at that moment. *)
Record yielded := Yielded { y_threshold : pyfloat; y_ref : ref; y_heap : heap }.

(** The matrix of a yielded pair as the consumer reads it on receipt. *)
Definition y_matrix (y : yielded) : BinaryConfusionMatrix.t := deref (y_heap y) (y_ref y).

(** Calling [next] until the generator stops, at most [fuel] times. *)
Fixpoint consume (fuel : nat) (self : t) (g : generator) (h : heap)
    : list yielded * generator * heap :=
  match fuel with
  | O => ([], g, h)
  | S fuel' =>
      match next self g h with
      | (Yield threshold r, g', h') =>
          let '(ys, g'', h'') := consume fuel' self g' h' in
          (Yielded threshold r h' :: ys, g'', h'')
      | (_, g', h') => ([], g', h')
      end
  end.

(** [list(self.iter_confusion_matrices(thresholds))]: every pair in the
    order of the yields, and the store once the generator is exhausted.
    The generator yields once per resolved threshold and once for [inf],
    then stops. *)
Definition iter_confusion_matrices (self : t) (thresholds : thresholds_arg) (h : heap)
    : list yielded * generator * heap :=
  consume (length (resolve_thresholds self thresholds) + 2) self (Created thresholds) h.

End BinaryClassifierData.

(** ** The sequence protocol of [BinaryClassifierData]

    [__getitem__] makes a dataset indexable, and with it iterable: a
    [for] loop over an object without [__iter__] calls [__getitem__] with
    0, 1, 2, ... until it raises [IndexError].  The constructor iterates
    over its argument this way when it is given a dataset (lines 214-220). *)

Module Sequence.
Import BinaryClassifierData.

Definition __getitem__ (self : BinaryClassifierData.t) (index : Z) : res point :=
  getitem (data self) index.

(** The points a [for] loop still receives from position [i] on; it makes
    at most [fuel] calls. *)
Fixpoint iter_from (fuel : nat) (self : BinaryClassifierData.t) (i : Z) : res (list point) :=
  match fuel with
  | O => Ok []
  | S fuel' =>
      match __getitem__ self i with
      | Ok p => ps ← iter_from fuel' self (i + 1)%Z; Ok (p :: ps)
      | Raise IndexError => Ok []
      | Raise e => Raise e
      end
  end.

(** [for point in self]: one call per point and one that raises. *)
Definition iter (self : BinaryClassifierData.t) : res (list point) :=
  iter_from (S (__len__ self)) self 0.

(** [BinaryClassifierData(data)] for [data] a dataset: the sorted list is
    taken over as it is, the positives are counted by iterating over the
    dataset, whose labels are booleans. *)
Definition copy (data : BinaryClassifierData.t) : res BinaryClassifierData.t :=
  points ← iter data;
  let self_data := BinaryClassifierData.data data in
  let total_positives := sum (map (λ p : point, (0 <? Z.b2z p.2)%Z) points) in
  Ok {| BinaryClassifierData.data := self_data;
        total_positives := total_positives;
        total_negatives := (Z.of_nat (length self_data) - total_positives)%Z |}.

End Sequence.

(** * Vocabulary of the properties *)

Import BinaryConfusionMatrix BinaryClassifierData.

(** The number of members of [l] that pass the test [P]. *)
Definition count {A : Type} (P : A → bool) (l : list A) : Z :=
  Z.of_nat (length (List.filter P l)).

(** ** The confusion matrix of a cut

    [classify rows t] counts the rows on either side of the threshold
    [t]: at or above it a row is predicted positive, below it negative. *)

Definition is_pos (row : point) : bool := row.2.
Definition is_neg (row : point) : bool := negb row.2.
Definition below (t : pyfloat) (row : point) : bool := float_ltb row.1 t.
Definition at_or_above (t : pyfloat) (row : point) : bool := float_geb row.1 t.

Definition classify (rows : list point) (t : pyfloat) : BinaryConfusionMatrix.t :=
  {| tp := count (λ row, at_or_above t row && is_pos row) rows;
     fp := count (λ row, at_or_above t row && is_neg row) rows;
     tn := count (λ row, below t row && is_neg row) rows;
     fn := count (λ row, below t row && is_pos row) rows |}.

(** What the constructor establishes and the methods rely on. *)
Record well_formed (self : BinaryClassifierData.t) : Prop := {
  wf_sorted : StronglySorted (leb_of tuple_ltb) (data self);
  wf_positives : total_positives self = count is_pos (data self);
  wf_negatives : total_negatives self = count is_neg (data self);
  wf_finite : Forall (λ row, float_ltb row.1 Inf = true) (data self)
}.

(** The counts the specification gives for a dataset as handed to the
    constructor and a threshold: a point is positive-labeled when its
    label is greater than zero, and classified positive when its score is
    at or above the threshold. *)
Definition labeled_positive (p : Qc * Z) : bool := (0 <? p.2)%Z.
Definition score_at_or_above (t : pyfloat) (p : Qc * Z) : bool := float_geb (Fin p.1) t.
Definition score_below (t : pyfloat) (p : Qc * Z) : bool := float_ltb (Fin p.1) t.

Definition spec_matrix (raw : list (Qc * Z)) (t : pyfloat) : BinaryConfusionMatrix.t :=
  {| tp := count (λ p, score_at_or_above t p && labeled_positive p) raw;
     fp := count (λ p, score_at_or_above t p && negb (labeled_positive p)) raw;
     tn := count (λ p, score_below t p && negb (labeled_positive p)) raw;
     fn := count (λ p, score_below t p && labeled_positive p) raw |}.

(** The dataset of the docstring of [get_confusion_matrix]. *)
Definition tenths (n : Z) : Qc := Q2Qc (n # 10).

Definition docstring_data : list (Qc * Z) :=
  [(tenths 1, 0); (tenths 2, 0); (tenths 3, 0); (tenths 4, 1); (tenths 5, 0);
   (tenths 6, 1); (tenths 7, 1); (tenths 8, 1); (tenths 9, 1)]%Z.

(** A grid of exactly 2 rows of exactly 2 columns each. *)
Definition is_2x2 (g : grid) : bool :=
  (length g =? 2)%nat && forallb (λ row, (length row =? 2)%nat) g.

(** ** The sweep, step by step *)

Definition total (m : BinaryConfusionMatrix.t) : Z := (tp m + fp m + tn m + fn m)%Z.

(** The rows one run of the [while] loop steps over: those before the
    first row whose score is at or above the threshold. *)
Fixpoint passed (threshold : pyfloat) (rows : list point) : list point :=
  match rows with
  | [] => []
  | row :: rows' =>
      if float_geb row.1 threshold then [] else row :: passed threshold rows'
  end.

(** The running matrix after the loop has stepped over [rows]. *)
Definition moves (rows : list point) (m : BinaryConfusionMatrix.t) : BinaryConfusionMatrix.t :=
  foldl (λ m row, move row.2 m) m rows.

(** What a generator suspended after its first [yield] still produces:
    per threshold one run of the loop and one copy of the running matrix. *)
Fixpoint sweep (self : BinaryClassifierData.t) (thresholds : list pyfloat)
    (row_idx : nat) (result : ref) (h : heap) : list yielded * heap :=
  match thresholds with
  | [] => ([], h)
  | threshold :: thresholds' =>
      let looped := while_loop (drop row_idx (data self)) threshold row_idx result h in
      let copied := alloc (deref looped.2 result) looped.2 in
      let rest := sweep self thresholds' looped.1 result copied.2 in
      (Yielded threshold copied.1 copied.2 :: rest.1, rest.2)
  end.

(** How a later pair of one sweep relates to an earlier one. *)
Definition later (y1 y2 : yielded) : Prop :=
  leb_of float_ltb (y_threshold y1) (y_threshold y2)
  ∧ (tp (y_matrix y2) ≤ tp (y_matrix y1))%Z
  ∧ (tn (y_matrix y1) ≤ tn (y_matrix y2))%Z.

(** The sweep starts at the bottom: there is a lowest threshold and no
    score lies below it, so that the cursor's start at row 0 is the cut
    of the first lookup. *)
Definition starts_at_bottom (self : BinaryClassifierData.t) (arg : thresholds_arg) : bool :=
  match resolve_thresholds self arg with
  | [] => false
  | t0 :: _ => forallb (at_or_above t0) (data self)
  end.

(** The all-negative extreme. *)
Definition all_negative (self : BinaryClassifierData.t) : BinaryConfusionMatrix.t :=
  {| tp := 0; fp := 0; tn := total_negatives self; fn := total_positives self |}.

(** Small inputs for the examples. *)
Definition empty_heap : heap :=
  {| next_ref := 0; deref := λ _, {| tp := 0; fp := 0; tn := 0; fn := 0 |} |}.

Definition two_points : list (Qc * Z) := [(tenths 1, 0); (tenths 5, 1)]%Z.

Definition tied_points : list (Qc * Z) := [(tenths 5, 1); (tenths 5, 0)]%Z.

(** The pairs of the sweep of [two_points] with [thresholds=None]. *)
Definition example_sweep : list yielded :=
  (iter_confusion_matrices (BinaryClassifierData.__init__ two_points)
     ThresholdsNone empty_heap).1.1.

Definition example_pair (i : nat) : yielded :=
  nth i example_sweep (Yielded Inf 0 empty_heap).

(** The thresholds the specification gives for [thresholds=None]: every
    score of the dataset in its order of appearance, duplicates kept. *)
Definition spec_none_thresholds (raw : list (Qc * Z)) : list pyfloat :=
  map (λ p, Fin p.1) raw.

(** The order of the dataset, spelled out: scores ascend, and of two
    points with the same score the negative one comes first. *)
Definition point_le (a b : point) : Prop :=
  float_ltb b.1 a.1 = false ∧ (a.1 = b.1 → a.2 = true → b.2 = true).

(** The same for the two counts of the other class. *)
Definition later_errors (y1 y2 : yielded) : Prop :=
  leb_of float_ltb (y_threshold y1) (y_threshold y2)
  ∧ (fp (y_matrix y2) ≤ fp (y_matrix y1))%Z
  ∧ (fn (y_matrix y1) ≤ fn (y_matrix y2))%Z.

(** * Properties *)

(** ** The comparisons are strict total orders *)

Lemma Qc_ltb_lt (x y : Qc) : Qc_ltb x y = true ↔ (x < y)%Qc.
Proof.
  unfold Qc_ltb. rewrite Qclt_alt.
  destruct (x ?= y)%Qc; split; congruence.
Qed.

Lemma Qc_ltb_ge (x y : Qc) : Qc_ltb x y = false ↔ (y <= x)%Qc.
Proof.
  rewrite <- not_true_iff_false, Qc_ltb_lt. split.
  - apply Qcnot_lt_le.
  - intros H1 H2. exact (Qclt_not_le _ _ H2 H1).
Qed.

#[export] Instance Qc_ltb_strict : StrictTotal Qc_ltb.
Proof.
  split.
  - intros x. apply Qc_ltb_ge, Qcle_refl.
  - intros x y z. rewrite !Qc_ltb_lt. apply Qclt_trans.
  - intros x y. rewrite !Qc_ltb_ge. intros H1 H2. now apply Qcle_antisym.
Qed.

#[export] Instance float_ltb_strict : StrictTotal float_ltb.
Proof.
  split.
  - intros [x|]; simpl; [apply ltb_irrefl | reflexivity].
  - intros [x|] [y|] [z|]; simpl; try congruence. apply ltb_trans.
  - intros [x|] [y|]; simpl; try congruence.
    intros H1 H2. f_equal. now apply (ltb_total (ltb := Qc_ltb)).
Qed.

#[export] Instance bool_ltb_strict : StrictTotal bool_ltb.
Proof.
  split.
  - intros []; reflexivity.
  - intros [] [] []; cbv; congruence.
  - intros [] []; cbv; congruence.
Qed.

#[export] Instance tuple_ltb_strict : StrictTotal tuple_ltb.
Proof.
  split.
  - intros [s l]. unfold tuple_ltb; simpl.
    destruct (decide (s = s)); [apply ltb_irrefl | congruence].
  - intros [s1 l1] [s2 l2] [s3 l3]. unfold tuple_ltb; simpl.
    repeat case_decide; subst; try congruence.
    + apply ltb_trans.
    + intros H1 H2. pose proof (ltb_trans _ _ _ H1 H2) as H3.
      now rewrite ltb_irrefl in H3.
    + apply ltb_trans.
  - intros [s1 l1] [s2 l2]. unfold tuple_ltb; simpl.
    repeat case_decide; subst; try congruence.
    + intros H1 H2. f_equal. now apply (ltb_total (ltb := bool_ltb)).
    + intros H1 H2. pose proof (ltb_total (ltb := float_ltb) _ _ H1 H2). congruence.
Qed.

Lemma float_geb_ltb (a b : pyfloat) : float_geb a b = negb (float_ltb a b).
Proof. destruct a, b; reflexivity. Qed.

(** Against the key [(threshold, False)] only the score decides. *)
Lemma tuple_ltb_key (p : point) (t : pyfloat) :
  tuple_ltb p (t, false) = float_ltb p.1 t.
Proof.
  destruct p as [s l]. unfold tuple_ltb; simpl. case_decide.
  - subst. rewrite ltb_irrefl. unfold bool_ltb. now rewrite andb_false_r.
  - reflexivity.
Qed.

(** ** Sorting and bisection *)

Section BuiltinFacts.
Context {A : Type} (ltb : A → A → bool) `{!StrictTotal ltb}.

Lemma leb_of_lt_trans a b x : leb_of ltb a b → ltb b x = true → ltb a x = true.
Proof.
  unfold leb_of. intros Hab Hbx.
  destruct (ltb a x) eqn:Hax; [reflexivity|].
  destruct (ltb x a) eqn:Hxa.
  - rewrite (ltb_trans _ _ _ Hbx Hxa) in Hab. discriminate.
  - rewrite (ltb_total _ _ Hax Hxa) in Hab. congruence.
Qed.

Lemma leb_of_trans a b c : leb_of ltb a b → leb_of ltb b c → leb_of ltb a c.
Proof.
  intros Hab Hbc. unfold leb_of.
  destruct (ltb c a) eqn:Hca; [|reflexivity].
  pose proof (leb_of_lt_trans _ _ _ Hbc Hca) as Hba.
  unfold leb_of in Hab. congruence.
Qed.

Lemma leb_of_total a b : ltb a b = true → leb_of ltb a b.
Proof.
  intros Hab. unfold leb_of. destruct (ltb b a) eqn:Hba; [|reflexivity].
  pose proof (ltb_trans _ _ _ Hab Hba) as Haa.
  now rewrite ltb_irrefl in Haa.
Qed.

Lemma insort_perm x l : insort ltb x l ≡ₚ x :: l.
Proof.
  induction l as [|y l IH]; simpl; [reflexivity|].
  destruct (ltb y x); [|reflexivity].
  rewrite IH. apply perm_swap.
Qed.

Lemma sorted_perm l : sorted ltb l ≡ₚ l.
Proof.
  induction l as [|x l IH]; simpl; [reflexivity|].
  now rewrite insort_perm, IH.
Qed.

Lemma insort_sorted x l :
  StronglySorted (leb_of ltb) l → StronglySorted (leb_of ltb) (insort ltb x l).
Proof.
  induction 1 as [|y l Hl IH Hy]; simpl.
  - repeat constructor.
  - destruct (ltb y x) eqn:Hyx.
    + constructor; [exact IH|].
      rewrite insort_perm. constructor; [|exact Hy].
      now apply leb_of_total.
    + constructor; [now constructor|].
      constructor; [exact Hyx|].
      eapply Forall_impl; [exact Hy|].
      intros z Hz. now apply leb_of_trans with y.
Qed.

Lemma sorted_sorted l : StronglySorted (leb_of ltb) (sorted ltb l).
Proof.
  induction l as [|x l IH]; simpl; [constructor|].
  now apply insort_sorted.
Qed.

(** Sorting a duplicate-free list gives a strictly ascending one. *)
Lemma sorted_strict l :
  NoDup l → StronglySorted (λ a b, ltb a b = true) (sorted ltb l).
Proof.
  intros Hnd. rewrite <- (sorted_perm l) in Hnd.
  pose proof (sorted_sorted l) as Hs.
  induction Hs as [|x l' Hl IH Hx]; [constructor|].
  apply NoDup_cons in Hnd as [Hx' Hnd].
  constructor; [now apply IH|].
  rewrite Forall_forall in Hx. apply Forall_forall. intros y Hy.
  destruct (ltb x y) eqn:Hxy; [reflexivity|].
  rewrite (ltb_total _ _ Hxy (Hx y Hy)) in Hx'. tauto.
Qed.

(** A sorted list is cut in two by any test that is closed downwards. *)
Lemma sorted_partition (P : A → bool) l :
  StronglySorted (leb_of ltb) l →
  (∀ a b, leb_of ltb a b → P b = true → P a = true) →
  l = List.filter P l ++ List.filter (λ y, negb (P y)) l.
Proof.
  intros Hs Hmono. induction Hs as [|x l Hl IH Hx]; [reflexivity|].
  simpl. destruct (P x) eqn:HPx; simpl.
  - now rewrite <- IH.
  - assert (Forall (λ y, P y = false) l) as Hall.
    { eapply Forall_impl; [exact Hx|]. intros y Hy.
      destruct (P y) eqn:HPy; [|reflexivity].
      rewrite (Hmono _ _ Hy HPy) in HPx. discriminate. }
    assert (List.filter P l = [] ∧ List.filter (λ y, negb (P y)) l = l) as [-> ->].
    { clear IH Hx Hl. induction Hall as [|y l Hy Hall [IH1 IH2]]; [easy|].
      simpl. rewrite Hy. simpl. now rewrite IH1, IH2. }
    reflexivity.
Qed.

Lemma bisect_loop_split n l1 l2 x lo hi :
  Forall (λ y, ltb y x = true) l1 →
  Forall (λ y, ltb y x = false) l2 →
  (lo ≤ length l1 ≤ hi)%nat →
  (hi ≤ length (l1 ++ l2))%nat →
  (hi - lo ≤ n)%nat →
  bisect_loop ltb n (l1 ++ l2) x lo hi = Ok (length l1).
Proof.
  intros H1 H2. revert lo hi.
  induction n as [|n IH]; intros lo hi Hlo Hhi Hn; cbn [bisect_loop].
  - f_equal. lia.
  - destruct (Nat.ltb_spec lo hi) as [Hlt|Hge]; [|f_equal; lia].
    pose proof (Nat.div_mod_eq (lo + hi) 2) as Hdiv.
    pose proof (Nat.mod_upper_bound (lo + hi) 2 ltac:(lia)) as Hmod.
    set (mid := ((lo + hi) / 2)%nat) in *.
    destruct (Nat.lt_ge_cases mid (length l1)) as [Hm|Hm].
    + rewrite lookup_app_l by exact Hm.
      destruct (lookup_lt_is_Some_2 l1 mid Hm) as [y Hy]. rewrite Hy.
      rewrite Forall_forall in H1.
      rewrite (H1 y) by (eapply list_elem_of_lookup_2; eauto).
      apply IH; lia.
    + rewrite lookup_app_r by exact Hm.
      pose proof (length_app l1 l2) as Hlen.
      destruct (lookup_lt_is_Some_2 l2 (mid - length l1)) as [y Hy]; [lia|].
      rewrite Hy. rewrite Forall_forall in H2.
      rewrite (H2 y) by (eapply list_elem_of_lookup_2; eauto).
      apply IH; lia.
Qed.

(** On a sorted list [bisect_left] returns the number of members below
    [x]; they are the prefix of that length, the others the suffix. *)
Lemma bisect_left_sorted l x :
  StronglySorted (leb_of ltb) l →
  let below := List.filter (λ y, ltb y x) l in
  bisect_left ltb l x = Ok (length below)
  ∧ take (length below) l = below
  ∧ drop (length below) l = List.filter (λ y, negb (ltb y x)) l.
Proof.
  intros Hs below.
  pose proof (sorted_partition (λ y, ltb y x) l Hs) as Hcut.
  fold below in Hcut.
  assert (l = below ++ List.filter (λ y, negb (ltb y x)) l) as Hl.
  { apply Hcut. intros a b. apply leb_of_lt_trans. }
  set (above := List.filter (λ y, negb (ltb y x)) l) in *.
  split; [|split].
  - assert (length l = (length below + length above)%nat) as Hlen.
    { rewrite Hl at 1. apply length_app. }
    unfold bisect_left. rewrite Hl at 2.
    apply bisect_loop_split.
    + apply Forall_forall. intros y Hy.
      now apply list_elem_of_In, filter_In in Hy.
    + apply Forall_forall. intros y Hy.
      apply list_elem_of_In, filter_In in Hy as [_ Hy].
      now apply negb_true_iff.
    + lia.
    + rewrite <- Hl. lia.
    + lia.
  - rewrite Hl at 1. apply take_app_length.
  - rewrite Hl at 1. apply drop_app_length.
Qed.
End BuiltinFacts.

(** ** Counting *)

Section Count.
Context {A : Type}.
Implicit Types (P Q : A → bool) (l : list A).

Lemma count_cons P x l : count P (x :: l) = (Z.b2z (P x) + count P l)%Z.
Proof. unfold count. simpl. destruct (P x); simpl length; simpl Z.b2z; lia. Qed.

Lemma count_app P l1 l2 : count P (l1 ++ l2) = (count P l1 + count P l2)%Z.
Proof. unfold count. rewrite List.filter_app, length_app. lia. Qed.

Lemma count_perm P l1 l2 : l1 ≡ₚ l2 → count P l1 = count P l2.
Proof.
  induction 1 as [|x l1 l2 _ IH|x y l|l1 l2 l3 _ IH1 _ IH2].
  - reflexivity.
  - now rewrite !count_cons, IH.
  - rewrite !count_cons. lia.
  - congruence.
Qed.

Lemma count_ext P Q l : (∀ x, P x = Q x) → count P l = count Q l.
Proof.
  intros H. induction l as [|x l IH]; [reflexivity|].
  now rewrite !count_cons, H, IH.
Qed.

Lemma count_filter P Q l : count P (List.filter Q l) = count (λ x, Q x && P x) l.
Proof.
  induction l as [|x l IH]; [reflexivity|].
  simpl. rewrite count_cons. destruct (Q x); simpl.
  - now rewrite count_cons, IH.
  - rewrite IH. lia.
Qed.

Lemma count_negb P l : (count P l + count (λ x, negb (P x)) l)%Z = Z.of_nat (length l).
Proof.
  induction l as [|x l IH]; [reflexivity|].
  rewrite !count_cons. simpl length. destruct (P x); simpl; lia.
Qed.

Lemma count_nonneg P l : (0 ≤ count P l)%Z.
Proof. unfold count. lia. Qed.
End Count.

Lemma count_map {A B : Type} (f : A → B) (P : B → bool) (l : list A) :
  count P (map f l) = count (λ x, P (f x)) l.
Proof.
  induction l as [|x l IH]; [reflexivity|].
  simpl map. now rewrite !count_cons, IH.
Qed.

(** ** Datasets built by the constructor *)

Lemma sum_count (l : list bool) : BinaryClassifierData.sum l = count id l.
Proof.
  unfold BinaryClassifierData.sum.
  enough (∀ acc, foldl (λ acc b, (acc + Z.b2z b)%Z) acc l = (acc + count id l)%Z) as H.
  { now rewrite H. }
  induction l as [|b l IH]; intros acc; simpl.
  - unfold count. simpl. lia.
  - rewrite IH, count_cons. unfold id at 2. lia.
Qed.

Lemma init_data_perm (raw : list (Qc * Z)) :
  data (BinaryClassifierData.__init__ raw) ≡ₚ map _normalize_point raw.
Proof. unfold BinaryClassifierData.__init__; simpl. now apply sorted_perm. Qed.

Lemma init_well_formed (raw : list (Qc * Z)) :
  well_formed (BinaryClassifierData.__init__ raw).
Proof.
  pose proof (init_data_perm raw) as Hperm.
  assert (total_positives (BinaryClassifierData.__init__ raw)
          = count is_pos (data (BinaryClassifierData.__init__ raw))) as Hpos.
  { rewrite (count_perm _ _ _ Hperm), count_map. simpl.
    now rewrite sum_count, count_map. }
  split.
  - simpl. apply sorted_sorted. apply _.
  - exact Hpos.
  - pose proof (count_negb is_pos (data (BinaryClassifierData.__init__ raw))) as Hn.
    change (total_negatives (BinaryClassifierData.__init__ raw))
      with (Z.of_nat (length (data (BinaryClassifierData.__init__ raw)))
            - total_positives (BinaryClassifierData.__init__ raw))%Z.
    rewrite Hpos. unfold is_neg. fold is_pos in Hn |- *.
    change (λ row : point, negb row.2) with (λ row, negb (is_pos row)). lia.
  - rewrite Hperm. apply Forall_forall. intros row Hrow.
    apply list_elem_of_fmap in Hrow as [p [-> _]]. reflexivity.
Qed.

Lemma init_length (raw : list (Qc * Z)) :
  length (data (BinaryClassifierData.__init__ raw)) = length raw.
Proof. now rewrite (Permutation_length (init_data_perm raw)), length_map. Qed.

(** ** [get_confusion_matrix] *)

Lemma at_or_above_below (t : pyfloat) (row : point) :
  at_or_above t row = negb (below t row).
Proof. apply float_geb_ltb. Qed.

Lemma count_cut {A : Type} (P Q : A → bool) (l : list A) :
  count P l = (count (λ x, Q x && P x) l + count (λ x, negb (Q x) && P x) l)%Z.
Proof.
  induction l as [|x l IH]; [reflexivity|].
  rewrite !count_cons, IH. destruct (Q x), (P x); simpl; lia.
Qed.

(** Accesses to a 2 by 2 grid at the literal positions the code uses. *)
Section GridAccess.
Variables a b c d v : Z.
Abbreviation g := [[a; b]; [c; d]] (only parsing).

Lemma grid_get_00 : grid_get g 0 0 = Ok a.
Proof. reflexivity. Qed.
Lemma grid_get_01 : grid_get g 0 1 = Ok b.
Proof. reflexivity. Qed.
Lemma grid_get_10 : grid_get g 1 0 = Ok c.
Proof. reflexivity. Qed.
Lemma grid_get_11 : grid_get g 1 1 = Ok d.
Proof. reflexivity. Qed.
Lemma grid_set_00 : grid_set g 0 0 v = Ok [[v; b]; [c; d]].
Proof. reflexivity. Qed.
Lemma grid_set_01 : grid_set g 0 1 v = Ok [[a; v]; [c; d]].
Proof. reflexivity. Qed.
Lemma grid_set_10 : grid_set g 1 0 v = Ok [[a; b]; [v; d]].
Proof. reflexivity. Qed.
Lemma grid_set_11 : grid_set g 1 1 v = Ok [[a; b]; [c; v]].
Proof. reflexivity. Qed.
End GridAccess.

Create Rewrite HintDb grid.
#[local] Hint Rewrite grid_get_00 grid_get_01 grid_get_10 grid_get_11
  grid_set_00 grid_set_01 grid_set_10 grid_set_11 : grid.

Ltac run_grid := repeat (autorewrite with grid; cbn [mbind res_bind Z.b2z]).

(** Equal constructors over arithmetically equal counts. *)
Ltac eq_counts := repeat (f_equal; try lia).

Lemma tally_0 (rows : list point) (a b c d : Z) :
  tally rows 0 [[a; b]; [c; d]]
  = Ok [[(a + count is_neg rows)%Z; (b + count is_pos rows)%Z]; [c; d]].
Proof.
  revert a b. induction rows as [|[s l] rows IH]; intros a b.
  - unfold count. simpl. eq_counts.
  - rewrite !count_cons. destruct l; cbn; run_grid; rewrite IH; eq_counts.
Qed.

Lemma tally_1 (rows : list point) (a b c d : Z) :
  tally rows 1 [[a; b]; [c; d]]
  = Ok [[a; b]; [(c + count is_neg rows)%Z; (d + count is_pos rows)%Z]].
Proof.
  revert c d. induction rows as [|[s l] rows IH]; intros c d.
  - unfold count. simpl. eq_counts.
  - rewrite !count_cons. destruct l; cbn; run_grid; rewrite IH; eq_counts.
Qed.

(** A 2 by 2 grid [[tn, fn], [fp, tp]] sets the four counts, whatever
    the keyword arguments. *)
Lemma init_grid_2x2 (a b c d tp0 fp0 fn0 tn0 : Z) :
  BinaryConfusionMatrix.__init__ (DataGrid [[a; b]; [c; d]]) tp0 fp0 fn0 tn0
  = Ok {| tp := d; fp := c; tn := a; fn := b |}.
Proof. reflexivity. Qed.

(** Copying a matrix through the constructor gives an equal matrix. *)
Lemma init_copy (m : BinaryConfusionMatrix.t) :
  BinaryConfusionMatrix.__init__ (DataMatrix m) 0 0 0 0 = Ok m.
Proof. destruct m. reflexivity. Qed.

(** On a well-formed dataset the lookup returns the matrix of the cut at
    the threshold, whichever half it scans. *)
Lemma get_confusion_matrix_classify (self : BinaryClassifierData.t) (t : pyfloat) :
  well_formed self →
  get_confusion_matrix self t = Ok (classify (data self) t).
Proof.
  intros [Hs Hp Hn _].
  destruct (bisect_left_sorted tuple_ltb (data self) (t, false) Hs)
    as (Hidx & Htake & Hdrop).
  unfold get_confusion_matrix. rewrite Hidx. cbn [mbind res_bind].
  assert (∀ P : point → bool,
    count P (List.filter (λ y, tuple_ltb y (t, false)) (data self))
    = count (λ row, below t row && P row) (data self)) as Hlo.
  { intros P. rewrite count_filter. apply count_ext. intros row.
    now rewrite tuple_ltb_key. }
  assert (∀ P : point → bool,
    count P (List.filter (λ y, negb (tuple_ltb y (t, false))) (data self))
    = count (λ row, at_or_above t row && P row) (data self)) as Hhi.
  { intros P. rewrite count_filter. apply count_ext. intros row.
    now rewrite tuple_ltb_key, at_or_above_below. }
  pose proof (count_cut is_pos (below t) (data self)) as Hcp.
  pose proof (count_cut is_neg (below t) (data self)) as Hcn.
  assert (∀ P : point → bool,
    count (λ row, negb (below t row) && P row) (data self)
    = count (λ row, at_or_above t row && P row) (data self)) as Hab.
  { intros P. apply count_ext. intros row. now rewrite at_or_above_below. }
  rewrite Hab in Hcp, Hcn.
  destruct (_ <=? _)%nat.
  - rewrite Htake, tally_0. run_grid. rewrite init_grid_2x2, !Hlo, Hp, Hn.
    unfold classify. eq_counts.
  - rewrite Hdrop, tally_1. run_grid. rewrite init_grid_2x2, !Hhi, Hp, Hn.
    unfold classify. eq_counts.
Qed.


Lemma classify_init (raw : list (Qc * Z)) (t : pyfloat) :
  classify (data (BinaryClassifierData.__init__ raw)) t = spec_matrix raw t.
Proof.
  unfold classify, spec_matrix.
  rewrite !(count_perm _ _ _ (init_data_perm raw)), !count_map.
  reflexivity.
Qed.

(** C1.  For every dataset and every threshold [t],
    [get_confusion_matrix(t)] returns the matrix whose [tp] is the number
    of positive-labeled points with score at or above [t], [fp] the number
    of negative-labeled points with score at or above [t], [fn] the number
    of positive-labeled points with score below [t] and [tn] the number of
    negative-labeled points with score below [t].  On the docstring's
    dataset, threshold 0.2 gives tp=5, fp=3, fn=0, tn=1 and threshold 0.75
    gives tp=2, fp=0, fn=3, tn=4. *)
Theorem get_confusion_matrix_counts :
  (∀ (raw : list (Qc * Z)) (t : pyfloat),
     get_confusion_matrix (BinaryClassifierData.__init__ raw) t
     = Ok (spec_matrix raw t))
  ∧ get_confusion_matrix (BinaryClassifierData.__init__ docstring_data)
      (Fin (Q2Qc (2 # 10)))
    = Ok {| tp := 5; fp := 3; tn := 1; fn := 0 |}
  ∧ get_confusion_matrix (BinaryClassifierData.__init__ docstring_data)
      (Fin (Q2Qc (75 # 100)))
    = Ok {| tp := 2; fp := 0; tn := 4; fn := 3 |}.
Proof.
  split; [|split].
  - intros raw t.
    rewrite get_confusion_matrix_classify by apply init_well_formed.
    now rewrite classify_init.
  - vm_compute. reflexivity.
  - vm_compute. reflexivity.
Qed.

(** ** The metrics on a degenerate matrix *)

(** C6.  For every confusion matrix with [tp = 0] and [fp = 0],
    [precision()] returns exactly 1.0, while [fdr()] on the same matrix
    fails with a division-by-zero error instead of returning a value. *)
Theorem precision_one_fdr_raises (tn0 fn0 : Z) :
  let m := {| tp := 0; fp := 0; tn := tn0; fn := fn0 |} in
  precision m = Ok (Q2Qc 1) ∧ fdr m = Raise ZeroDivisionError.
Proof. split; reflexivity. Qed.

(** Away from the degenerate case both metrics return a quotient. *)
Lemma precision_fdr_defined (m : BinaryConfusionMatrix.t) :
  (tp m + fp m ≠ 0)%Z →
  precision m = Ok (Q2Qc (inject_Z (tp m) / inject_Z (tp m + fp m)))
  ∧ fdr m = Ok (Q2Qc (inject_Z (fp m) / inject_Z (fp m + tp m))).
Proof.
  intros H. unfold precision, fdr, float_div.
  destruct (Z.eqb_spec (tp m + fp m) 0) as [|_]; [lia|].
  destruct (Z.eqb_spec (fp m + tp m) 0) as [|_]; [lia|].
  split; reflexivity.
Qed.

(** ** Indexed access *)

(** C10.  For every matrix [m] and every coordinate pair [(obs, exp)],
    reading [m[obs, exp]] and writing [m[obs, exp] = v] both fail with an
    attribute error: they look up [_data], which is not among the slots
    and which the class does not define. *)
Theorem indexed_access_raises (m : BinaryConfusionMatrix.t) (obs exp v : Z) :
  __getitem__ m (obs, exp) = Raise (AttributeError "_data")
  ∧ __setitem__ m (obs, exp) v = Raise (AttributeError "_data")
  ∧ ¬ In "_data"%string __slots__
  ∧ ¬ In "_data"%string class_attributes.
Proof.
  repeat split; try reflexivity.
  - unfold __slots__. simpl. intros H. decompose [or] H; discriminate || contradiction.
  - unfold class_attributes. simpl. intros H. decompose [or] H; discriminate || contradiction.
Qed.

(** The slots themselves are readable through attribute lookup. *)
Lemma getattr_slots (m : BinaryConfusionMatrix.t) :
  getattr m "tp" = Ok (VInt (tp m)) ∧ getattr m "fp" = Ok (VInt (fp m))
  ∧ getattr m "tn" = Ok (VInt (tn m)) ∧ getattr m "fn" = Ok (VInt (fn m))
  ∧ getattr m "data" = Ok (VGrid [[tn m; fn m]; [fp m; tp m]]).
Proof. repeat split; reflexivity. Qed.

(** ** Construction from a grid *)

Lemma is_2x2_shape (g : grid) :
  is_2x2 g = true ↔ ∃ a b c d, g = [[a; b]; [c; d]].
Proof.
  split.
  - destruct g as [|[|a [|b [|? ?]]] [|[|c [|d [|? ?]]] [|? ?]]]; try discriminate.
    intros _. now exists a, b, c, d.
  - intros (a & b & c & d & ->). reflexivity.
Qed.

Lemma set_data_grid_checked (self : BinaryConfusionMatrix.t) (g : grid) :
  (∃ e, set_data_grid self g = Raise e) ↔ is_2x2 g = false.
Proof.
  split.
  - intros [e He]. apply not_true_iff_false. intros Hg.
    apply is_2x2_shape in Hg as (a & b & c & d & ->). discriminate.
  - intros Hbad. unfold set_data_grid. unfold is_2x2 in Hbad.
    destruct (length g =? 2)%nat eqn:Hlen; simpl negb; cbv iota; [|eauto].
    destruct g as [|r1 [|r2 [|? ?]]]; try discriminate. simpl in Hbad |- *.
    destruct (length r1 =? 2)%nat eqn:H1; simpl in Hbad |- *; [|eauto].
    destruct (length r2 =? 2)%nat eqn:H3; simpl in Hbad |- *; [discriminate|eauto].
Qed.

(** Assigning to the [data] property checks every grid, the empty one
    included. *)
Lemma set_data_checked (self : BinaryConfusionMatrix.t) (g : grid) :
  (∃ e, set_data self (DataGrid g) = Raise e) ↔ is_2x2 g = false.
Proof. apply set_data_grid_checked. Qed.

(** C8, as the code has it.  The constructor tests [if data:] and so
    checks a grid only when it is not empty.  Constructing a matrix from a
    non-empty grid fails if and only if the grid is not exactly 2 rows of
    exactly 2 columns each, and a failed call returns no object; a grid
    [[tn, fn], [fp, tp]] sets the four counts accordingly; the empty grid
    is taken for an absent one and the matrix of the keyword counts is
    returned. *)
Theorem init_grid_checked (g : grid) (tp0 fp0 fn0 tn0 : Z) :
  ((∃ e, BinaryConfusionMatrix.__init__ (DataGrid g) tp0 fp0 fn0 tn0 = Raise e)
   ↔ g ≠ [] ∧ is_2x2 g = false)
  ∧ (∀ a b c d, g = [[a; b]; [c; d]] →
       BinaryConfusionMatrix.__init__ (DataGrid g) tp0 fp0 fn0 tn0
       = Ok {| tp := d; fp := c; tn := a; fn := b |})
  ∧ (g = [] →
       BinaryConfusionMatrix.__init__ (DataGrid g) tp0 fp0 fn0 tn0
       = Ok {| tp := tp0; fp := fp0; tn := tn0; fn := fn0 |}).
Proof.
  split; [|split].
  - destruct g as [|row g].
    + split; [intros [e He]; discriminate|intros [H _]; congruence].
    + change (BinaryConfusionMatrix.__init__ (DataGrid (row :: g)) tp0 fp0 fn0 tn0)
        with (set_data_grid {| tp := tp0; fp := fp0; tn := tn0; fn := fn0 |} (row :: g)).
      rewrite set_data_grid_checked. split; [intros H; split; [discriminate|exact H]|tauto].
  - intros a b c d ->. reflexivity.
  - intros ->. reflexivity.
Qed.

(** C8 as stated fails: the empty grid is not 2 by 2, and the constructor
    returns a matrix for it; the same grid assigned to the [data] property
    of an existing matrix is refused. *)
Lemma init_empty_grid_accepted :
  is_2x2 [] = false
  ∧ BinaryConfusionMatrix.__init__ (DataGrid []) 0 0 0 0
    = Ok {| tp := 0; fp := 0; tn := 0; fn := 0 |}
  ∧ set_data {| tp := 0; fp := 0; tn := 0; fn := 0 |} (DataGrid [])
    = Raise (ValueError "confusion matrix must have 2 rows").
Proof. repeat split. Qed.


(** ** The generator, step by step *)

Section WhileLoop.
Variables (t : pyfloat) (a : ref).

Lemma while_loop_row_idx rows r h :
  (while_loop rows t r a h).1 = (r + length (passed t rows))%nat.
Proof.
  revert r h. induction rows as [|row rows IH]; intros r h; simpl.
  - lia.
  - destruct (float_geb row.1 t); simpl; [lia|]. rewrite IH. lia.
Qed.

Lemma while_loop_next_ref rows r h :
  next_ref (while_loop rows t r a h).2 = next_ref h.
Proof.
  revert r h. induction rows as [|row rows IH]; intros r h; simpl.
  - reflexivity.
  - destruct (float_geb row.1 t); simpl; [reflexivity|]. now rewrite IH.
Qed.

(** The loop writes to the running matrix and to nothing else. *)
Lemma while_loop_deref rows r h b :
  deref (while_loop rows t r a h).2 b
  = if decide (b = a) then moves (passed t rows) (deref h a) else deref h b.
Proof.
  revert r h. induction rows as [|row rows IH]; intros r h; simpl.
  - now case_decide; subst.
  - destruct (float_geb row.1 t); simpl.
    + now case_decide; subst.
    + rewrite IH. simpl. repeat case_decide; congruence.
Qed.
End WhileLoop.

Lemma consume_step (self : BinaryClassifierData.t) fuel g h :
  consume (S fuel) self g h
  = match next self g h with
    | (Yield threshold r, g', h') =>
        let '(ys, g'', h'') := consume fuel self g' h' in
        (Yielded threshold r h' :: ys, g'', h'')
    | (_, g', h') => ([], g', h')
    end.
Proof. reflexivity. Qed.

Lemma consume_suspended (self : BinaryClassifierData.t) fuel ths r a h :
  (length ths < fuel)%nat →
  consume fuel self (Suspended ths r a) h
  = ((sweep self ths r a h).1, Finished, (sweep self ths r a h).2).
Proof.
  revert fuel r h. induction ths as [|t ths IH]; intros fuel r h Hfuel;
    (destruct fuel as [|fuel]; [simpl in Hfuel; lia|]).
  - reflexivity.
  - simpl in Hfuel. cbn [consume next sweep].
    destruct (while_loop (drop r (data self)) t r a h) as [r' h1].
    rewrite init_copy. cbn [alloc fst snd].
    rewrite IH by lia. reflexivity.
Qed.

(** The generator on an empty dataset, or with no thresholds to visit,
    stops at once. *)
Lemma iter_confusion_matrices_empty (self : BinaryClassifierData.t) arg h :
  data self = [] ∨ resolve_thresholds self arg = [] →
  iter_confusion_matrices self arg h = ([], Finished, h).
Proof.
  unfold iter_confusion_matrices.
  rewrite Nat.add_comm. cbn [Nat.add consume next]. unfold __len__.
  intros [H|H]; rewrite H.
  - reflexivity.
  - now destruct (length (data self) =? 0)%nat.
Qed.

(** Otherwise it looks up the matrix of the lowest threshold, yields that
    very object, and sweeps over the other thresholds and [inf]. *)
Lemma iter_confusion_matrices_run (self : BinaryClassifierData.t) arg h t0 ths :
  well_formed self →
  data self ≠ [] →
  resolve_thresholds self arg = t0 :: ths →
  let r0 := next_ref h in
  let h0 := (alloc (classify (data self) t0) h).2 in
  iter_confusion_matrices self arg h
  = (Yielded t0 r0 h0 :: (sweep self (ths ++ [Inf]) 0 r0 h0).1,
     Finished,
     (sweep self (ths ++ [Inf]) 0 r0 h0).2).
Proof.
  intros Hwf Hne Hres r0 h0. unfold iter_confusion_matrices.
  rewrite Hres.
  replace (length (t0 :: ths) + 2)%nat with (S (S (S (length ths))))
    by (simpl; lia).
  set (fuel := S (S (length ths))).
  rewrite consume_step. cbn [next]. unfold __len__.
  assert ((length (data self) =? 0)%nat = false) as ->.
  { destruct (data self); [congruence|reflexivity]. }
  rewrite Hres. cbn [app].
  rewrite get_confusion_matrix_classify by exact Hwf.
  cbn [alloc]. rewrite consume_suspended.
  - reflexivity.
  - subst fuel. rewrite length_app. simpl. lia.
Qed.

Lemma moves_counts (rows : list point) (m : BinaryConfusionMatrix.t) :
  moves rows m
  = {| tp := tp m - count is_pos rows; fp := fp m - count is_neg rows;
       tn := tn m + count is_neg rows; fn := fn m + count is_pos rows |}.
Proof.
  unfold moves. revert m. induction rows as [|[s l] rows IH]; intros m.
  - destruct m. unfold count. simpl. eq_counts.
  - cbn [foldl]. rewrite IH, !count_cons.
    unfold is_pos, is_neg. destruct l; simpl; eq_counts.
Qed.

Lemma total_moves (rows : list point) (m : BinaryConfusionMatrix.t) :
  total (moves rows m) = total m.
Proof. rewrite moves_counts. unfold total. simpl. lia. Qed.

(** One threshold of the sweep: the loop steps over [pre], the running
    matrix [result] becomes [m], and a fresh object [c] holding a copy of
    [m] is yielded.  No other object changes. *)
Lemma sweep_step (self : BinaryClassifierData.t) t ths r result h :
  (result < next_ref h)%nat →
  let pre := passed t (drop r (data self)) in
  let m := moves pre (deref h result) in
  let c := next_ref h in
  ∃ h2,
    next_ref h2 = S (next_ref h)
    ∧ deref h2 result = m
    ∧ deref h2 c = m
    ∧ (∀ b, b ≠ result → b ≠ c → deref h2 b = deref h b)
    ∧ sweep self (t :: ths) r result h
      = (Yielded t c h2 :: (sweep self ths (r + length pre) result h2).1,
         (sweep self ths (r + length pre) result h2).2).
Proof.
  intros Hres pre m c.
  exists (alloc (deref (while_loop (drop r (data self)) t r result h).2 result)
            (while_loop (drop r (data self)) t r result h).2).2.
  cbn [sweep alloc fst snd next_ref deref].
  rewrite while_loop_next_ref, while_loop_row_idx.
  subst pre m c.
  repeat split; intros; rewrite ?while_loop_deref;
    repeat case_decide; congruence || lia.
Qed.


(** The sweep visits the thresholds in order, only ever writes to the
    running matrix, and hands out fresh objects that keep the value they
    were yielded with. *)
Lemma sweep_frame (self : BinaryClassifierData.t) ths r result h :
  (result < next_ref h)%nat →
  map y_threshold (sweep self ths r result h).1 = ths
  ∧ (next_ref h ≤ next_ref (sweep self ths r result h).2)%nat
  ∧ (∀ b, (b < next_ref h)%nat → b ≠ result →
       deref (sweep self ths r result h).2 b = deref h b)
  ∧ Forall (λ y, (next_ref h ≤ y_ref y < next_ref (sweep self ths r result h).2)%nat
               ∧ deref (sweep self ths r result h).2 (y_ref y) = y_matrix y)
      (sweep self ths r result h).1.
Proof.
  revert r h. induction ths as [|t ths IH]; intros r h Hres.
  - simpl. repeat split; auto.
  - destruct (sweep_step self t ths r result h Hres)
      as (h2 & Hnext & _ & Hc & Hother & ->).
    set (r' := (r + _)%nat).
    destruct (IH r' h2) as (Hths & Hle & Hframe & Hys); [lia|].
    cbn [fst snd map y_threshold]. rewrite Hths.
    split; [reflexivity|]. split; [lia|]. split.
    + intros b Hb Hne. rewrite Hframe by lia. apply Hother; lia.
    + constructor.
      * cbn [y_ref y_matrix y_heap]. split; [lia|].
        rewrite Hframe by lia. reflexivity.
      * eapply Forall_impl; [exact Hys|]. intros y [Hy1 Hy2]. split; [lia|exact Hy2].
Qed.

(** Every object of the sweep keeps the total it started with. *)
Lemma sweep_total (self : BinaryClassifierData.t) (N : Z) (lo : ref) ths r result h :
  (lo ≤ result < next_ref h)%nat →
  (∀ b, (lo ≤ b < next_ref h)%nat → total (deref h b) = N) →
  (∀ b, (lo ≤ b < next_ref (sweep self ths r result h).2)%nat →
     total (deref (sweep self ths r result h).2 b) = N)
  ∧ Forall (λ y, total (y_matrix y) = N) (sweep self ths r result h).1.
Proof.
  revert r h. induction ths as [|t ths IH]; intros r h Hres Hall.
  - simpl. split; [exact Hall|constructor].
  - destruct (sweep_step self t ths r result h) as (h2 & Hnext & Ha & Hc & Hother & ->);
      [lia|].
    set (r' := (r + _)%nat).
    assert (∀ b, (lo ≤ b < next_ref h2)%nat → total (deref h2 b) = N) as Hall2.
    { intros b Hb.
      destruct (decide (b = result)) as [->|Hne1].
      { rewrite Ha, total_moves. apply Hall. lia. }
      destruct (decide (b = next_ref h)) as [->|Hne2].
      { rewrite Hc, total_moves. apply Hall. lia. }
      rewrite Hother by assumption. apply Hall. lia. }
    destruct (IH r' h2) as (Hfin & Hys); [lia|exact Hall2|].
    cbn [fst snd]. split; [exact Hfin|].
    constructor; [|exact Hys].
    unfold y_matrix. cbn [y_ref y_heap]. apply Hall2. lia.
Qed.

(** Along the sweep true positives only fall and true negatives only rise. *)
Lemma sweep_monotone (self : BinaryClassifierData.t) ths r result h :
  (result < next_ref h)%nat →
  StronglySorted (leb_of float_ltb) ths →
  Forall (λ y, (tp (y_matrix y) ≤ tp (deref h result))%Z
               ∧ (tn (deref h result) ≤ tn (y_matrix y))%Z)
    (sweep self ths r result h).1
  ∧ StronglySorted later (sweep self ths r result h).1.
Proof.
  intros Hres Hsorted. revert r h Hres.
  induction Hsorted as [|t ths Hsorted IH Ht]; intros r h Hres.
  - simpl. split; constructor.
  - destruct (sweep_step self t ths r result h Hres)
      as (h2 & Hnext & Ha & Hc & Hother & ->).
    set (r' := (r + _)%nat) in *.
    destruct (sweep_frame self ths r' result h2) as (Hths & _); [lia|].
    destruct (IH r' h2) as (Hbound & Hlater); [lia|].
    pose proof (count_nonneg is_pos (passed t (drop r (data self)))) as Hp.
    pose proof (count_nonneg is_neg (passed t (drop r (data self)))) as Hn.
    rewrite Ha, moves_counts in Hbound. cbn [tp tn] in Hbound.
    cbn [fst]. split.
    + constructor.
      * unfold y_matrix. cbn [y_ref y_heap]. rewrite Hc, moves_counts. simpl. lia.
      * eapply Forall_impl; [exact Hbound|]. simpl. intros y. lia.
    + constructor; [exact Hlater|].
      rewrite <- Hths in Ht. rewrite Forall_fmap in Ht.
      rewrite Forall_forall in Ht, Hbound. apply Forall_forall. intros y Hy.
      split; [exact (Ht y Hy)|].
      unfold y_matrix at 2 3. cbn [y_ref y_heap]. rewrite Hc, moves_counts.
      cbn [tp tn]. specialize (Hbound y Hy). lia.
Qed.

(** ** The thresholds of a sweep *)

(** Lines 282-287 end in [sorted(set(thresholds))] whatever the argument
    was: the thresholds are strictly ascending. *)
Lemma resolve_thresholds_strict (self : BinaryClassifierData.t) arg :
  StronglySorted (λ a b, float_ltb a b = true) (resolve_thresholds self arg).
Proof.
  unfold resolve_thresholds, set_. apply sorted_strict; [apply _|].
  apply NoDup_remove_dups.
Qed.

Lemma strict_then_inf (ths : list pyfloat) :
  StronglySorted (λ a b, float_ltb a b = true) ths →
  StronglySorted (leb_of float_ltb) (ths ++ [Inf]).
Proof.
  induction 1 as [|t ths Hs IH Ht]; simpl.
  - repeat constructor.
  - constructor; [exact IH|].
    apply Forall_app. split.
    + eapply Forall_impl; [exact Ht|]. intros x Hx.
      exact (leb_of_total float_ltb _ _ Hx).
    + repeat constructor.
Qed.

Lemma total_classify (rows : list point) (t : pyfloat) :
  total (classify rows t) = Z.of_nat (length rows).
Proof.
  unfold total, classify. cbn [tp fp tn fn].
  rewrite <- (count_negb is_pos rows).
  rewrite (count_cut is_pos (below t) rows).
  rewrite (count_cut (λ x, negb (is_pos x)) (below t) rows).
  rewrite (count_ext (λ row, at_or_above t row && is_pos row)
             (λ row, negb (below t row) && is_pos row))
    by (intros; now rewrite at_or_above_below).
  rewrite (count_ext (λ row, at_or_above t row && is_neg row)
             (λ row, negb (below t row) && negb (is_pos row)))
    by (intros; now rewrite at_or_above_below).
  change (λ row, below t row && is_neg row)
    with (λ row, below t row && negb (is_pos row)).
  lia.
Qed.

(** ** The total is the size of the dataset *)

(** C3.  For every dataset of size N, the matrix that
    [get_confusion_matrix] returns and every matrix that
    [iter_confusion_matrices] yields satisfies [tp + fp + tn + fn = N], when
    it is yielded and after the rest of the sweep has run. *)
Theorem total_is_dataset_size (raw : list (Qc * Z)) :
  let self := BinaryClassifierData.__init__ raw in
  let N := Z.of_nat (length raw) in
  (∀ t, ∃ m, get_confusion_matrix self t = Ok m ∧ total m = N)
  ∧ (∀ arg h,
       Forall (λ y, total (y_matrix y) = N
                    ∧ total (deref (iter_confusion_matrices self arg h).2 (y_ref y)) = N)
         (iter_confusion_matrices self arg h).1.1).
Proof.
  intros self N. pose proof (init_well_formed raw) as Hwf. fold self in Hwf.
  assert (∀ t, total (classify (data self) t) = N) as Htotal.
  { intros t. rewrite total_classify. unfold N, self. now rewrite init_length. }
  split.
  - intros t. exists (classify (data self) t). split; [|apply Htotal].
    now apply get_confusion_matrix_classify.
  - intros arg h.
    destruct (resolve_thresholds self arg) as [|t0 ths] eqn:Hres.
    { rewrite iter_confusion_matrices_empty by (right; exact Hres). constructor. }
    assert (data self = [] ∨ data self ≠ []) as [Hdata|Hdata]
      by (destruct (data self); [left|right]; congruence).
    { rewrite iter_confusion_matrices_empty by (left; exact Hdata). constructor. }
    rewrite (iter_confusion_matrices_run self arg h t0 ths Hwf) by assumption.
    cbn [fst snd].
    set (r0 := next_ref h).
    set (h0 := (alloc (classify (data self) t0) h).2).
    assert (deref h0 r0 = classify (data self) t0) as Hr0.
    { subst h0 r0. simpl. case_decide; congruence. }
    destruct (sweep_total self N r0 (ths ++ [Inf]) 0 r0 h0) as (Hfin & Hys).
    { subst h0 r0. simpl. lia. }
    { intros b Hb. assert (b = r0) as -> by (subst h0 r0; simpl in Hb; lia).
      rewrite Hr0. apply Htotal. }
    destruct (sweep_frame self (ths ++ [Inf]) 0 r0 h0) as (_ & Hle & _ & Hrefs).
    { subst h0 r0. simpl. lia. }
    constructor.
    + unfold y_matrix. cbn [y_ref y_heap]. rewrite Hr0. split; [apply Htotal|].
      apply Hfin. subst h0 r0. simpl in Hle |- *. lia.
    + rewrite Forall_forall in Hys, Hrefs. apply Forall_forall. intros y Hy.
      split; [exact (Hys y Hy)|].
      apply Hfin. destruct (Hrefs y Hy) as [Hrange _].
      subst h0 r0. simpl in Hrange |- *. lia.
Qed.

(** ** Monotonicity along a sweep *)

Lemma StronglySorted_pairs {A : Type} (R : A → A → Prop) (l : list A) (x y : A) :
  StronglySorted R l → x ∈ l → y ∈ l → x = y ∨ R x y ∨ R y x.
Proof.
  induction 1 as [|z l Hl IH Hz]; intros Hx Hy.
  - inversion Hx.
  - rewrite Forall_forall in Hz.
    apply elem_of_cons in Hx as [->|Hx]; apply elem_of_cons in Hy as [->|Hy]; auto.
Qed.

(** The pairs of one sweep, in the order of the yields: thresholds never
    fall, true positives never rise, true negatives never fall. *)
Lemma iter_confusion_matrices_later (raw : list (Qc * Z)) arg h :
  StronglySorted later
    (iter_confusion_matrices (BinaryClassifierData.__init__ raw) arg h).1.1.
Proof.
  set (self := BinaryClassifierData.__init__ raw).
  pose proof (init_well_formed raw) as Hwf. fold self in Hwf.
  destruct (resolve_thresholds self arg) as [|t0 ths] eqn:Hres.
  { rewrite iter_confusion_matrices_empty by (right; exact Hres). constructor. }
  assert (data self = [] ∨ data self ≠ []) as [Hdata|Hdata]
    by (destruct (data self); [left|right]; congruence).
  { rewrite iter_confusion_matrices_empty by (left; exact Hdata). constructor. }
  rewrite (iter_confusion_matrices_run self arg h t0 ths Hwf) by assumption.
  cbn [fst snd].
  set (r0 := next_ref h).
  set (h0 := (alloc (classify (data self) t0) h).2).
  assert (r0 < next_ref h0)%nat as Hr0 by (subst h0 r0; simpl; lia).
  pose proof (resolve_thresholds_strict self arg) as Hstrict.
  rewrite Hres in Hstrict.
  pose proof (strict_then_inf _ Hstrict) as Hsorted.
  change ((t0 :: ths) ++ [Inf]) with (t0 :: (ths ++ [Inf])) in Hsorted.
  apply StronglySorted_inv in Hsorted as [Hsorted Ht0].
  destruct (sweep_monotone self (ths ++ [Inf]) 0 r0 h0 Hr0 Hsorted) as (Hbound & Hlater).
  destruct (sweep_frame self (ths ++ [Inf]) 0 r0 h0 Hr0) as (Hths & _).
  constructor; [exact Hlater|].
  rewrite <- Hths, Forall_fmap in Ht0.
  rewrite Forall_forall in Ht0, Hbound. apply Forall_forall. intros y Hy.
  split; [exact (Ht0 y Hy)|]. exact (Hbound y Hy).
Qed.

(** C4.  Across a sweep of [iter_confusion_matrices], between a yielded
    pair and one with a strictly greater threshold the yielded [tp] does
    not increase and the yielded [tn] does not decrease. *)
Theorem sweep_tp_falls_tn_rises (raw : list (Qc * Z)) arg h (y1 y2 : yielded) :
  let ys := (iter_confusion_matrices (BinaryClassifierData.__init__ raw) arg h).1.1 in
  y1 ∈ ys → y2 ∈ ys →
  float_ltb (y_threshold y1) (y_threshold y2) = true →
  (tp (y_matrix y2) ≤ tp (y_matrix y1))%Z ∧ (tn (y_matrix y1) ≤ tn (y_matrix y2))%Z.
Proof.
  intros ys H1 H2 Hlt.
  destruct (StronglySorted_pairs later ys y1 y2) as [->|[Hl|Hl]]; try assumption.
  - apply iter_confusion_matrices_later.
  - now rewrite ltb_irrefl in Hlt.
  - apply Hl.
  - destruct Hl as [Hle _]. unfold leb_of in Hle. congruence.
Qed.

Lemma sweep_tp_falls_tn_rises_witness :
  example_pair 0 ∈ example_sweep
  ∧ example_pair 2 ∈ example_sweep
  ∧ float_ltb (y_threshold (example_pair 0)) (y_threshold (example_pair 2)) = true
  ∧ (tp (y_matrix (example_pair 2)) ≤ tp (y_matrix (example_pair 0)))%Z
  ∧ (tn (y_matrix (example_pair 0)) ≤ tn (y_matrix (example_pair 2)))%Z.
Proof.
  assert (example_pair 0 ∈ example_sweep) as H1.
  { apply list_elem_of_lookup. exists 0%nat. vm_compute. reflexivity. }
  assert (example_pair 2 ∈ example_sweep) as H2.
  { apply list_elem_of_lookup. exists 2%nat. vm_compute. reflexivity. }
  assert (float_ltb (y_threshold (example_pair 0)) (y_threshold (example_pair 2)) = true)
    as H3 by (vm_compute; reflexivity).
  exact (conj H1 (conj H2 (conj H3
    (sweep_tp_falls_tn_rises two_points ThresholdsNone empty_heap
       (example_pair 0) (example_pair 2) H1 H2 H3)))).
Defined.

(** The sweep of [two_points] with [thresholds=None], as yielded. *)
Example example_sweep_pairs :
  map (λ y, (y_threshold y, y_ref y, y_matrix y)) example_sweep
  = [(Fin (tenths 1), 0%nat, {| tp := 1; fp := 1; tn := 0; fn := 0 |});
     (Fin (tenths 5), 1%nat, {| tp := 1; fp := 0; tn := 1; fn := 0 |});
     (Inf, 2%nat, {| tp := 0; fp := 0; tn := 1; fn := 1 |})].
Proof. vm_compute. reflexivity. Qed.

(** ** When the sweep agrees with the lookup

    The cursor [row_idx] starts at 0.  If no score lies below the lowest
    threshold, the rows before the cursor are exactly the rows already
    classified negative, and every step of the sweep lands on the matrix
    of its threshold. *)

Lemma float_lt_le_trans (a b c : pyfloat) :
  float_ltb a b = true → leb_of float_ltb b c → float_ltb a c = true.
Proof.
  unfold leb_of. intros Hab Hbc.
  destruct (float_ltb a c) eqn:Hac; [reflexivity|].
  destruct (float_ltb c a) eqn:Hca.
  - rewrite (ltb_trans _ _ _ Hca Hab) in Hbc. discriminate.
  - rewrite (ltb_total _ _ Hac Hca) in Hab. congruence.
Qed.

Lemma below_mono (t t' : pyfloat) (row : point) :
  leb_of float_ltb t t' → below t row = true → below t' row = true.
Proof. unfold below. intros Hle Hlt. exact (float_lt_le_trans _ _ _ Hlt Hle). Qed.

Lemma below_closed (t : pyfloat) (a b : point) :
  leb_of tuple_ltb a b → below t b = true → below t a = true.
Proof.
  unfold below. rewrite <- !tuple_ltb_key. apply leb_of_lt_trans, _.
Qed.

Lemma filter_none {A : Type} (P : A → bool) (l : list A) :
  Forall (λ x, P x = false) l → List.filter P l = [].
Proof.
  induction 1 as [|x l Hx _ IH]; [reflexivity|]. simpl. now rewrite Hx.
Qed.

Lemma StronglySorted_filter {A : Type} (R : A → A → Prop) (P : A → bool) (l : list A) :
  StronglySorted R l → StronglySorted R (List.filter P l).
Proof.
  induction 1 as [|x l Hl IH Hx]; simpl; [constructor|].
  destruct (P x); [|exact IH].
  constructor; [exact IH|].
  rewrite Forall_forall in Hx. apply Forall_forall. intros y Hy.
  apply Hx. apply list_elem_of_In in Hy. apply filter_In in Hy as [Hy _].
  now apply list_elem_of_In.
Qed.

(** On sorted rows the loop steps over exactly the rows below the
    threshold. *)
Lemma passed_sorted (t : pyfloat) (rows : list point) :
  StronglySorted (leb_of tuple_ltb) rows →
  passed t rows = List.filter (below t) rows.
Proof.
  induction 1 as [|row rows Hs IH Hrow]; [reflexivity|].
  simpl. unfold below at 1. rewrite float_geb_ltb.
  destruct (float_ltb row.1 t) eqn:Hlt; simpl.
  - now rewrite IH.
  - symmetry. apply filter_none.
    eapply Forall_impl; [exact Hrow|]. intros y Hy.
    destruct (below t y) eqn:Hb; [|reflexivity].
    pose proof (below_closed t row y Hy Hb) as Hrow'.
    unfold below in Hrow'. congruence.
Qed.

Lemma data_cut (rows : list point) (t : pyfloat) :
  StronglySorted (leb_of tuple_ltb) rows →
  drop (length (List.filter (below t) rows)) rows
  = List.filter (λ row, negb (below t row)) rows.
Proof.
  intros Hs.
  rewrite (sorted_partition tuple_ltb (below t) rows Hs) at 2
    by (intros a b; apply below_closed).
  apply drop_app_length.
Qed.

Section Bands.
Context {A : Type} (lo hi P : A → bool).
Hypothesis lo_hi : ∀ x, lo x = true → hi x = true.

Lemma count_band_low l :
  count (λ x, hi x && P x) l
  = (count (λ x, lo x && P x) l + count (λ x, negb (lo x) && (hi x && P x)) l)%Z.
Proof.
  induction l as [|x l IH]; [reflexivity|].
  rewrite !count_cons, IH. pose proof (lo_hi x).
  destruct (lo x), (hi x), (P x); simpl; intuition (discriminate || lia).
Qed.

Lemma count_band_high l :
  count (λ x, negb (lo x) && P x) l
  = (count (λ x, negb (lo x) && (hi x && P x)) l + count (λ x, negb (hi x) && P x) l)%Z.
Proof.
  induction l as [|x l IH]; [reflexivity|].
  rewrite !count_cons, IH. pose proof (lo_hi x).
  destruct (lo x), (hi x), (P x); simpl; intuition (discriminate || lia).
Qed.
End Bands.

Lemma count_band_all {A : Type} (lo hi : A → bool) (l : list A) :
  (∀ x, lo x = true → hi x = true) →
  count hi l = (count lo l + count (λ x, negb (lo x) && hi x) l)%Z.
Proof.
  intros lo_hi. induction l as [|x l IH]; [reflexivity|].
  rewrite !count_cons, IH. pose proof (lo_hi x).
  destruct (lo x), (hi x); simpl; intuition (discriminate || lia).
Qed.

(** Moving the rows between two cuts turns the matrix of the lower cut
    into the matrix of the higher one. *)
Lemma classify_advance (rows : list point) (t t' : pyfloat) :
  leb_of float_ltb t t' →
  moves (List.filter (below t') (List.filter (λ row, negb (below t row)) rows))
    (classify rows t)
  = classify rows t'.
Proof.
  intros Hle. rewrite moves_counts. unfold classify. cbn [tp fp tn fn].
  rewrite !count_filter.
  assert (∀ (u : pyfloat) (P : point → bool),
    count (λ row, at_or_above u row && P row) rows
    = count (λ row, negb (below u row) && P row) rows) as Hab.
  { intros u P. apply count_ext. intros row. now rewrite at_or_above_below. }
  rewrite !Hab.
  pose proof (λ P, count_band_low (below t) (below t') P
                     (λ row, below_mono t t' row Hle) rows) as Hlow.
  pose proof (λ P, count_band_high (below t) (below t') P
                     (λ row, below_mono t t' row Hle) rows) as Hhigh.
  rewrite (Hlow is_pos), (Hlow is_neg), (Hhigh is_pos), (Hhigh is_neg).
  eq_counts.
Qed.

Lemma sweep_aligned (self : BinaryClassifierData.t) t ths r result h :
  well_formed self →
  (result < next_ref h)%nat →
  StronglySorted (leb_of float_ltb) (t :: ths) →
  r = length (List.filter (below t) (data self)) →
  deref h result = classify (data self) t →
  Forall (λ y, y_matrix y = classify (data self) (y_threshold y))
    (sweep self ths r result h).1.
Proof.
  intros Hwf. revert t r h.
  induction ths as [|t' ths IH]; intros t r h Hres Hsorted Hr Hm.
  - constructor.
  - apply StronglySorted_inv in Hsorted as [Hsorted Ht].
    apply Forall_cons in Ht as [Hle _].
    destruct (sweep_step self t' ths r result h Hres)
      as (h2 & Hnext & Ha & Hc & _ & ->).
    assert (passed t' (drop r (data self))
            = List.filter (below t') (List.filter (λ row, negb (below t row)) (data self)))
      as Hpre.
    { rewrite Hr, data_cut by apply Hwf.
      apply passed_sorted, StronglySorted_filter, Hwf. }
    rewrite Hpre in *. rewrite Hm, classify_advance in Ha, Hc by exact Hle.
    cbn [fst]. constructor.
    + unfold y_matrix. cbn [y_ref y_heap y_threshold]. exact Hc.
    + apply (IH t'); [lia|exact Hsorted| |exact Ha].
      apply Nat2Z.inj. rewrite Nat2Z.inj_add, Hr.
      change (count (below t) (data self)
              + count (below t') (List.filter (λ row, negb (below t row)) (data self))
              = count (below t') (data self))%Z.
      rewrite count_filter.
      rewrite (count_band_all (below t) (below t') (data self))
        by (intros row; now apply below_mono).
      reflexivity.
Qed.


Lemma count_ext_Forall {A : Type} (P Q : A → bool) (l : list A) :
  Forall (λ x, P x = Q x) l → count P l = count Q l.
Proof.
  induction 1 as [|x l Hx _ IH]; [reflexivity|].
  now rewrite !count_cons, Hx, IH.
Qed.

Lemma count_never {A : Type} (l : list A) : count (λ _, false) l = 0%Z.
Proof.
  induction l as [|x l IH]; [reflexivity|]. rewrite count_cons, IH. reflexivity.
Qed.

(** At [inf] every row, its score being a real number, is classified
    negative. *)
Lemma classify_inf (self : BinaryClassifierData.t) :
  well_formed self → classify (data self) Inf = all_negative self.
Proof.
  intros [_ Hp Hn Hfin]. unfold classify, all_negative. rewrite Hp, Hn.
  assert (∀ P : point → bool,
    count (λ row, at_or_above Inf row && P row) (data self) = 0%Z) as Hhi.
  { intros P. rewrite <- (count_never (data self)). apply count_ext_Forall.
    eapply Forall_impl; [exact Hfin|]. intros row Hrow.
    rewrite at_or_above_below. unfold below. now rewrite Hrow. }
  assert (∀ P : point → bool,
    count (λ row, below Inf row && P row) (data self) = count P (data self)) as Hlo.
  { intros P. apply count_ext_Forall.
    eapply Forall_impl; [exact Hfin|]. intros row Hrow.
    unfold below. now rewrite Hrow. }
  now rewrite !Hhi, !Hlo.
Qed.

(** A sweep that starts at the bottom yields, for each of its thresholds
    and then for [inf], the matrix the lookup returns there. *)
Lemma iter_confusion_matrices_aligned (self : BinaryClassifierData.t) arg h :
  well_formed self →
  data self ≠ [] →
  starts_at_bottom self arg = true →
  map y_threshold (iter_confusion_matrices self arg h).1.1
  = resolve_thresholds self arg ++ [Inf]
  ∧ Forall (λ y, get_confusion_matrix self (y_threshold y) = Ok (y_matrix y))
      (iter_confusion_matrices self arg h).1.1.
Proof.
  intros Hwf Hdata Hstart. unfold starts_at_bottom in Hstart.
  destruct (resolve_thresholds self arg) as [|t0 ths] eqn:Hres; [discriminate|].
  rewrite (iter_confusion_matrices_run self arg h t0 ths Hwf Hdata Hres).
  cbn [fst snd].
  set (r0 := next_ref h).
  set (h0 := (alloc (classify (data self) t0) h).2).
  assert (r0 < next_ref h0)%nat as Hr0 by (subst h0 r0; simpl; lia).
  assert (deref h0 r0 = classify (data self) t0) as Hm.
  { subst h0 r0. simpl. case_decide; congruence. }
  destruct (sweep_frame self (ths ++ [Inf]) 0 r0 h0 Hr0) as (Hths & _).
  split.
  - cbn [map y_threshold]. now rewrite Hths.
  - pose proof (resolve_thresholds_strict self arg) as Hstrict.
    rewrite Hres in Hstrict. apply strict_then_inf in Hstrict.
    change ((t0 :: ths) ++ [Inf]) with (t0 :: (ths ++ [Inf])) in Hstrict.
    eapply Forall_impl with
      (P := λ y, y_matrix y = classify (data self) (y_threshold y)).
    2:{ intros y Hy. rewrite Hy. now apply get_confusion_matrix_classify. }
    constructor.
    + unfold y_matrix. cbn [y_ref y_heap y_threshold]. exact Hm.
    + apply (sweep_aligned self t0); try assumption.
      symmetry. rewrite filter_none; [reflexivity|].
      apply Forall_forall. intros row Hrow.
      rewrite forallb_forall in Hstart.
      apply list_elem_of_In, Hstart in Hrow.
      rewrite at_or_above_below in Hrow. now apply negb_true_iff.
Qed.

(** With [thresholds=None] the lowest threshold is the lowest score, so
    the sweep of a non-empty dataset starts at the bottom. *)
Lemma none_starts_at_bottom (raw : list (Qc * Z)) :
  raw ≠ [] →
  starts_at_bottom (BinaryClassifierData.__init__ raw) ThresholdsNone = true.
Proof.
  intros Hraw. set (self := BinaryClassifierData.__init__ raw).
  unfold starts_at_bottom.
  pose proof (resolve_thresholds_strict self ThresholdsNone) as Hstrict.
  assert (∀ row, row ∈ data self → row.1 ∈ resolve_thresholds self ThresholdsNone)
    as Hin.
  { intros row Hrow. unfold resolve_thresholds, set_.
    rewrite sorted_perm by apply _. apply elem_of_remove_dups.
    apply list_elem_of_fmap. exists row. split; [now destruct row|exact Hrow]. }
  destruct (resolve_thresholds self ThresholdsNone) as [|t0 ths].
  - exfalso. destruct raw as [|p raw]; [congruence|].
    assert (_normalize_point p ∈ data self) as Hp.
    { unfold self. rewrite init_data_perm. simpl. left. }
    apply Hin in Hp. inversion Hp.
  - apply forallb_forall. intros row Hrow.
    apply list_elem_of_In, Hin in Hrow.
    rewrite at_or_above_below. apply negb_true_iff. unfold below.
    apply StronglySorted_inv in Hstrict as [_ Hstrict].
    apply elem_of_cons in Hrow as [->|Hrow].
    + apply ltb_irrefl.
    + rewrite Forall_forall in Hstrict.
      exact (leb_of_total float_ltb _ _ (Hstrict _ Hrow)).
Qed.

(** ** The end of a sweep *)

Lemma map_snoc_inv {A B : Type} (f : A → B) (l : list A) (k : list B) (b : B) :
  map f l = k ++ [b] → ∃ l' y, l = l' ++ [y] ∧ f y = b.
Proof.
  revert k. induction l as [|x l IH]; intros k Hk.
  - destruct k; discriminate.
  - destruct k as [|b' k]; simpl in Hk.
    + injection Hk as Hx Hl. destruct l; [|discriminate].
      exists [], x. split; [reflexivity|exact Hx].
    + injection Hk as _ Hl. destruct (IH k Hl) as (l' & y & -> & Hy).
      exists (x :: l'), y. split; [reflexivity|exact Hy].
Qed.

(** The last pair of a sweep that starts at the bottom. *)
Lemma sweep_last_pair (raw : list (Qc * Z)) arg h :
  let self := BinaryClassifierData.__init__ raw in
  raw ≠ [] →
  starts_at_bottom self arg = true →
  ∃ y, last (iter_confusion_matrices self arg h).1.1 = Some y
       ∧ y_threshold y = Inf
       ∧ y_matrix y = all_negative self.
Proof.
  intros self Hraw Hstart.
  pose proof (init_well_formed raw) as Hwf. fold self in Hwf.
  assert (data self ≠ []) as Hdata.
  { intros Hnil. apply (f_equal length) in Hnil.
    unfold self in Hnil. rewrite init_length in Hnil. now destruct raw. }
  destruct (iter_confusion_matrices_aligned self arg h Hwf Hdata Hstart)
    as (Hths & Hys).
  destruct (map_snoc_inv _ _ _ _ Hths) as (ys' & y & Heq & Hy).
  rewrite Heq in Hys |- *. exists y.
  split; [apply last_snoc|]. split; [exact Hy|].
  apply Forall_app in Hys as [_ Hlast]. apply Forall_cons in Hlast as [Hlast _].
  rewrite Hy, (get_confusion_matrix_classify self Inf Hwf), classify_inf in Hlast
    by exact Hwf.
  now injection Hlast.
Qed.




(** With [thresholds=None] the condition holds for every non-empty
    dataset. *)
Lemma sweep_none_ends_all_negative (raw : list (Qc * Z)) h :
  let self := BinaryClassifierData.__init__ raw in
  raw ≠ [] →
  ∃ y, last (iter_confusion_matrices self ThresholdsNone h).1.1 = Some y
       ∧ y_threshold y = Inf
       ∧ y_matrix y = all_negative self.
Proof.
  intros self Hraw. apply sweep_last_pair; [exact Hraw|].
  now apply none_starts_at_bottom.
Qed.



(** ** Where the sweep and the lookup part ways *)

(** C2.  What the code does where the claim fails.  The explicit
    threshold 0.3 lies above the score 0.1.  The first lookup already
    counts that row as a true negative; the cursor nevertheless starts at
    row 0, so the step to [inf] moves the row a second time.  The pair
    yielded for [inf] has [fp = -1] and [tn = 2], while the lookup at [inf]
    gives [fp = 0] and [tn = 1]. *)
Theorem sweep_moves_skipped_rows_twice :
  let self := BinaryClassifierData.__init__ two_points in
  let ys := (iter_confusion_matrices self (ThresholdsIter [Fin (tenths 3)]) empty_heap).1.1 in
  map (λ y, (y_threshold y, y_matrix y)) ys
  = [(Fin (tenths 3), {| tp := 1; fp := 0; tn := 1; fn := 0 |});
     (Inf, {| tp := 0; fp := -1; tn := 2; fn := 1 |})]
  ∧ get_confusion_matrix self (Fin (tenths 3)) = Ok {| tp := 1; fp := 0; tn := 1; fn := 0 |}
  ∧ get_confusion_matrix self Inf = Ok {| tp := 0; fp := 0; tn := 1; fn := 1 |}.
Proof. repeat split; vm_compute; reflexivity. Qed.

(** ** Snapshots *)

(** C9.  What the code does where the claim fails.  The first pair
    carries the running matrix itself, not a copy: read on receipt it is
    the matrix of the lowest threshold, and once the rest of the sweep
    has been consumed the same object holds the all-negative counts. *)
Theorem first_yield_is_the_running_matrix :
  let run := iter_confusion_matrices (BinaryClassifierData.__init__ two_points)
               ThresholdsNone empty_heap in
  ∃ y, head run.1.1 = Some y
       ∧ y_matrix y = {| tp := 1; fp := 1; tn := 0; fn := 0 |}
       ∧ deref run.2 (y_ref y) = {| tp := 0; fp := 0; tn := 1; fn := 1 |}.
Proof.
  eexists. split; [vm_compute; reflexivity|].
  split; vm_compute; reflexivity.
Qed.

(** Every pair after the first is a copy that later steps leave alone. *)
Lemma later_yields_are_snapshots (raw : list (Qc * Z)) arg h :
  let run := iter_confusion_matrices (BinaryClassifierData.__init__ raw) arg h in
  Forall (λ y, deref run.2 (y_ref y) = y_matrix y) (tail run.1.1).
Proof.
  set (self := BinaryClassifierData.__init__ raw).
  pose proof (init_well_formed raw) as Hwf. fold self in Hwf.
  destruct (resolve_thresholds self arg) as [|t0 ths] eqn:Hres.
  { simpl. rewrite iter_confusion_matrices_empty by (right; exact Hres). constructor. }
  assert (data self = [] ∨ data self ≠ []) as [Hdata|Hdata]
    by (destruct (data self); [left|right]; congruence).
  { simpl. rewrite iter_confusion_matrices_empty by (left; exact Hdata). constructor. }
  simpl. rewrite (iter_confusion_matrices_run self arg h t0 ths Hwf) by assumption.
  cbn [fst snd tail].
  destruct (sweep_frame self (ths ++ [Inf]) 0 (next_ref h)
              (alloc (classify (data self) t0) h).2) as (_ & _ & _ & Hys).
  { simpl. lia. }
  eapply Forall_impl; [exact Hys|]. intros y [_ Hy]. exact Hy.
Qed.

(** ** The thresholds of [thresholds=None] *)

(** C5 as stated fails: two points with the same score give one
    threshold, not two. *)
Lemma none_thresholds_lose_duplicates :
  let self := BinaryClassifierData.__init__ tied_points in
  spec_none_thresholds tied_points = [Fin (tenths 5); Fin (tenths 5)]
  ∧ resolve_thresholds self ThresholdsNone = [Fin (tenths 5)]
  ∧ resolve_thresholds self ThresholdsNone ≠ spec_none_thresholds tied_points
  ∧ map y_threshold (iter_confusion_matrices self ThresholdsNone empty_heap).1.1
    = [Fin (tenths 5); Inf].
Proof.
  repeat split; try (vm_compute; reflexivity).
  intros H. apply (f_equal length) in H. vm_compute in H. discriminate.
Qed.

(** C5, as the code has it.  With [thresholds=None] the resolved
    thresholds are the distinct scores of the dataset in strictly
    ascending order: sorted and freed of duplicates, like the thresholds
    of an integer or of an explicit collection.  On a non-empty dataset
    the yielded thresholds are these, followed by [inf]. *)
Theorem none_thresholds_sorted_distinct (raw : list (Qc * Z)) h :
  let self := BinaryClassifierData.__init__ raw in
  let ths := resolve_thresholds self ThresholdsNone in
  StronglySorted (λ a b, float_ltb a b = true) ths
  ∧ NoDup ths
  ∧ (∀ t, t ∈ ths ↔ ∃ p, p ∈ raw ∧ t = Fin p.1)
  ∧ map y_threshold (iter_confusion_matrices self ThresholdsNone h).1.1
    = match raw with [] => [] | _ :: _ => ths ++ [Inf] end.
Proof.
  intros self ths.
  pose proof (init_well_formed raw) as Hwf. fold self in Hwf.
  split; [apply resolve_thresholds_strict|].
  split.
  { unfold ths, resolve_thresholds, set_.
    rewrite sorted_perm by apply _. apply NoDup_remove_dups. }
  split.
  { intros t. unfold ths, resolve_thresholds, set_.
    rewrite sorted_perm by apply _. rewrite elem_of_remove_dups.
    rewrite list_elem_of_fmap. unfold self. split.
    - intros ([s l] & -> & Hrow). rewrite init_data_perm in Hrow.
      apply list_elem_of_fmap in Hrow as (p & Hp & Hin).
      exists p. split; [exact Hin|]. now injection Hp.
    - intros (p & Hin & ->). exists (_normalize_point p).
      split; [reflexivity|]. rewrite init_data_perm.
      apply list_elem_of_fmap. now exists p. }
  assert (raw ≠ [] → map y_threshold (iter_confusion_matrices self ThresholdsNone h).1.1
                     = ths ++ [Inf]) as Hrun.
  { intros Hraw.
    destruct (iter_confusion_matrices_aligned self ThresholdsNone h) as [Hths _];
      try assumption.
    - intros Hnil. apply (f_equal length) in Hnil.
      unfold self in Hnil. rewrite init_length in Hnil. now destruct raw.
    - now apply none_starts_at_bottom. }
  clear Hwf. revert Hrun. subst ths self. intros Hrun.
  destruct raw as [|p raw'].
  - now rewrite iter_confusion_matrices_empty by (left; reflexivity).
  - now apply Hrun.
Qed.

(** ** Termination *)

(** The generator of a dataset built by the constructor is exhausted
    within the calls of [next] that [iter_confusion_matrices] allows. *)
Lemma iter_confusion_matrices_finishes (raw : list (Qc * Z)) arg h :
  (iter_confusion_matrices (BinaryClassifierData.__init__ raw) arg h).1.2 = Finished.
Proof.
  set (self := BinaryClassifierData.__init__ raw).
  pose proof (init_well_formed raw) as Hwf. fold self in Hwf.
  destruct (resolve_thresholds self arg) as [|t0 ths] eqn:Hres.
  { now rewrite iter_confusion_matrices_empty by (right; exact Hres). }
  assert (data self = [] ∨ data self ≠ []) as [Hdata|Hdata]
    by (destruct (data self); [left|right]; congruence).
  { now rewrite iter_confusion_matrices_empty by (left; exact Hdata). }
  now rewrite (iter_confusion_matrices_run self arg h t0 ths Hwf) by assumption.
Qed.

(** * Further properties of the code *)

(** ** The grid of a matrix *)

(** X1.  Round trip through the grid.  A matrix built from the grid of a
    matrix [m], or from [m] itself, equals [m] whatever counts are passed
    by keyword besides; assigning the grid of [m], or [m], to the [data]
    property of any matrix turns it into [m]; and the grid of a matrix
    built from a non-empty grid is that grid. *)
Theorem data_round_trip (m self : BinaryConfusionMatrix.t) (g : grid) (tp0 fp0 fn0 tn0 : Z) :
  BinaryConfusionMatrix.__init__ (DataGrid (BinaryConfusionMatrix.data m)) tp0 fp0 fn0 tn0 = Ok m
  ∧ BinaryConfusionMatrix.__init__ (DataMatrix m) tp0 fp0 fn0 tn0 = Ok m
  ∧ set_data self (DataGrid (BinaryConfusionMatrix.data m)) = Ok m
  ∧ set_data self (DataMatrix m) = Ok m
  ∧ (∀ m', g ≠ [] →
       BinaryConfusionMatrix.__init__ (DataGrid g) tp0 fp0 fn0 tn0 = Ok m' →
       BinaryConfusionMatrix.data m' = g).
Proof.
  destruct m. repeat split.
  intros m' Hne Hinit.
  destruct (is_2x2 g) eqn:Hg.
  - apply is_2x2_shape in Hg as (a & b & c & d & ->).
    rewrite init_grid_2x2 in Hinit. now injection Hinit as <-.
  - exfalso. destruct g as [|row g]; [congruence|].
    change (BinaryConfusionMatrix.__init__ (DataGrid (row :: g)) tp0 fp0 fn0 tn0)
      with (set_data_grid {| tp := tp0; fp := fp0; tn := tn0; fn := fn0 |} (row :: g))
      in Hinit.
    apply (set_data_grid_checked {| tp := tp0; fp := fp0; tn := tn0; fn := fn0 |}) in Hg
      as [e He].
    congruence.
Qed.

(** X2.  Assigning a grid to the [data] property fails if and only if
    the grid is not 2 by 2, the empty grid included; a failure is one of
    the two [ValueError]s of the setter, never an error of the unpacking
    assignment that follows the checks. *)
Theorem data_setter_checks_shape (self : BinaryConfusionMatrix.t) (g : grid) :
  ((∃ e, set_data self (DataGrid g) = Raise e) ↔ is_2x2 g = false)
  ∧ (∀ e, set_data self (DataGrid g) = Raise e →
       e = ValueError "confusion matrix must have 2 rows"
       ∨ e = ValueError "confusion matrix must have 2 columns").
Proof.
  split; [apply set_data_grid_checked|].
  intros e. cbn [set_data]. unfold set_data_grid.
  destruct (length g =? 2)%nat eqn:Hlen; cbn [negb].
  2:{ intros [= <-]. now left. }
  destruct g as [|r1 [|r2 [|? ?]]]; try discriminate. cbn [existsb].
  destruct (length r1 =? 2)%nat eqn:H1; cbn [negb orb].
  2:{ intros [= <-]. now right. }
  destruct (length r2 =? 2)%nat eqn:H2; cbn [negb orb].
  2:{ intros [= <-]. now right. }
  destruct r1 as [|? [|? [|? ?]]]; try discriminate.
  destruct r2 as [|? [|? [|? ?]]]; discriminate.
Qed.

(** X3.  [__eq__] holds exactly between matrices with the same four
    counts. *)
Theorem eq_reflects_equality (m1 m2 : BinaryConfusionMatrix.t) :
  __eq__ m1 m2 = true ↔ m1 = m2.
Proof.
  unfold __eq__. rewrite !andb_true_iff, !Z.eqb_eq. split.
  - intros [[[Htp Htn] Hfp] Hfn]. destruct m1, m2. simpl in *. congruence.
  - intros ->. tauto.
Qed.

(** ** The metrics *)

Lemma float_div_raises (num den : Z) :
  float_div num den = Raise ZeroDivisionError ↔ den = 0%Z.
Proof.
  unfold float_div. destruct (Z.eqb_spec den 0); split; congruence.
Qed.

Lemma float_div_unit (a b : Z) :
  (0 ≤ a ≤ b)%Z → b ≠ 0%Z →
  ∃ q, float_div a b = Ok q ∧ (Q2Qc 0 <= q)%Qc ∧ (q <= Q2Qc 1)%Qc.
Proof.
  intros Hab Hb. unfold float_div.
  destruct (Z.eqb_spec b 0) as [|_]; [congruence|].
  eexists. split; [reflexivity|].
  assert (0 < inject_Z b)%Q as Hpos.
  { change 0%Q with (inject_Z 0). rewrite <- Zlt_Qlt. lia. }
  unfold Qcle. cbn [this Q2Qc]. rewrite !Qred_correct. split.
  - apply Qle_shift_div_l; [exact Hpos|]. rewrite Qmult_0_l.
    change 0%Q with (inject_Z 0). rewrite <- Zle_Qle. lia.
  - apply Qle_shift_div_r; [exact Hpos|]. rewrite Qmult_1_l.
    rewrite <- Zle_Qle. lia.
Qed.

(** X4.  [accuracy], [fdn] and [fdp] divide by the sum of the four
    counts: each raises [ZeroDivisionError] exactly when that sum is zero,
    and all three raise together. *)
Theorem accuracy_fdn_fdp_raise_on_zero_total (m : BinaryConfusionMatrix.t) :
  (accuracy m = Raise ZeroDivisionError ↔ total m = 0%Z)
  ∧ (fdn m = Raise ZeroDivisionError ↔ total m = 0%Z)
  ∧ (fdp m = Raise ZeroDivisionError ↔ total m = 0%Z).
Proof.
  unfold accuracy, fdn, fdp, total. cbv zeta. rewrite !float_div_raises.
  repeat split; lia.
Qed.

(** X5.  On a matrix whose [tp] and [fp] are non-negative and small
    enough to be converted to a float (their sum is below 2^1023),
    [precision] does not raise and returns a value between 0 and 1, which
    is 1.0 when [tp + fp = 0]. *)
Theorem precision_total_and_bounded (m : BinaryConfusionMatrix.t) :
  (0 ≤ tp m)%Z → (0 ≤ fp m)%Z → (tp m + fp m < 2 ^ 1023)%Z →
  ∃ q, precision m = Ok q ∧ (Q2Qc 0 <= q)%Qc ∧ (q <= Q2Qc 1)%Qc
       ∧ ((tp m + fp m)%Z = 0%Z → q = Q2Qc 1).
Proof.
  intros Htp Hfp _. unfold precision.
  destruct (Z.eq_dec (tp m + fp m)%Z 0%Z) as [Hz|Hnz].
  - rewrite (proj2 (float_div_raises (tp m) _) Hz). exists (Q2Qc 1). now repeat split.
  - destruct (float_div_unit (tp m) (tp m + fp m)%Z) as (q & -> & Hq); [lia|exact Hnz|].
    exists q. split; [reflexivity|]. split; [apply Hq|]. split; [apply Hq|].
    intros Hz. contradiction.
Qed.

Lemma precision_total_and_bounded_witness :
  (0 ≤ tp {| tp := 63; fp := 28; tn := 72; fn := 37 |})%Z
  ∧ (0 ≤ fp {| tp := 63; fp := 28; tn := 72; fn := 37 |})%Z
  ∧ (tp {| tp := 63; fp := 28; tn := 72; fn := 37 |}
     + fp {| tp := 63; fp := 28; tn := 72; fn := 37 |} < 2 ^ 1023)%Z
  ∧ ∃ q, precision {| tp := 63; fp := 28; tn := 72; fn := 37 |} = Ok q
         ∧ (Q2Qc 0 <= q)%Qc ∧ (q <= Q2Qc 1)%Qc
         ∧ ((tp {| tp := 63; fp := 28; tn := 72; fn := 37 |}
             + fp {| tp := 63; fp := 28; tn := 72; fn := 37 |})%Z = 0%Z → q = Q2Qc 1).
Proof.
  assert (0 ≤ tp {| tp := 63; fp := 28; tn := 72; fn := 37 |})%Z as H1 by (simpl; lia).
  assert (0 ≤ fp {| tp := 63; fp := 28; tn := 72; fn := 37 |})%Z as H2 by (simpl; lia).
  assert (tp {| tp := 63; fp := 28; tn := 72; fn := 37 |}
          + fp {| tp := 63; fp := 28; tn := 72; fn := 37 |} < 2 ^ 1023)%Z as H3
    by (vm_compute; reflexivity).
  exact (conj H1 (conj H2 (conj H3 (precision_total_and_bounded _ H1 H2 H3)))).
Defined.

(** ** The constructor of a dataset *)

Section SortedUnique.
Context {A : Type} (ltb : A → A → bool) `{!StrictTotal ltb}.

(** There is one sorted arrangement of a list. *)
Lemma sorted_unique (l1 l2 : list A) :
  StronglySorted (leb_of ltb) l1 → StronglySorted (leb_of ltb) l2 →
  l1 ≡ₚ l2 → l1 = l2.
Proof.
  intros H1. revert l2. induction H1 as [|x l1 Hs1 IH Hx]; intros l2 H2 Hperm.
  - now apply Permutation_nil_l in Hperm.
  - destruct H2 as [|y l2 Hs2 Hy].
    { now apply Permutation_nil_r in Hperm. }
    assert (x = y) as ->.
    { rewrite Forall_forall in Hx, Hy.
      assert (x ∈ y :: l2) as Hxin by (rewrite <- Hperm; left).
      assert (y ∈ x :: l1) as Hyin by (rewrite Hperm; left).
      apply elem_of_cons in Hxin as [->|Hxin]; [reflexivity|].
      apply elem_of_cons in Hyin as [->|Hyin]; [reflexivity|].
      apply (ltb_total (ltb := ltb)).
      - exact (Hy x Hxin).
      - exact (Hx y Hyin). }
    f_equal. apply IH; [exact Hs2|]. now apply Permutation_cons_inv in Hperm.
Qed.

Lemma sorted_of_perm (l1 l2 : list A) : l1 ≡ₚ l2 → sorted ltb l1 = sorted ltb l2.
Proof.
  intros Hperm. apply sorted_unique; try now apply sorted_sorted.
  now rewrite !sorted_perm.
Qed.

(** Sorting leaves a sorted list as it is. *)
Lemma sorted_id (l : list A) : StronglySorted (leb_of ltb) l → sorted ltb l = l.
Proof.
  intros Hs. apply sorted_unique; [now apply sorted_sorted|exact Hs|].
  now apply sorted_perm.
Qed.
End SortedUnique.

Lemma leb_of_point_le (a b : point) : leb_of tuple_ltb a b → point_le a b.
Proof.
  destruct a as [s1 l1], b as [s2 l2]. unfold leb_of, tuple_ltb, point_le. simpl.
  case_decide as Heq.
  - subst. intros Hb. split; [apply ltb_irrefl|].
    intros _ ->. now destruct l2.
  - intros Hlt. split; [exact Hlt|congruence].
Qed.

Lemma init_totals (raw : list (Qc * Z)) :
  total_positives (BinaryClassifierData.__init__ raw) = count labeled_positive raw
  ∧ total_negatives (BinaryClassifierData.__init__ raw)
    = count (λ p, negb (labeled_positive p)) raw.
Proof.
  destruct (init_well_formed raw) as [_ Hp Hn _].
  rewrite Hp, Hn, !(count_perm _ _ _ (init_data_perm raw)), !count_map.
  split; reflexivity.
Qed.

Lemma init_point_sorted (raw : list (Qc * Z)) :
  StronglySorted point_le (data (BinaryClassifierData.__init__ raw)).
Proof.
  pose proof (wf_sorted _ (init_well_formed raw)) as Hs.
  induction Hs as [|x l Hl IH Hx]; constructor; [exact IH|].
  eapply Forall_impl; [exact Hx|]. apply leb_of_point_le.
Qed.

(** X6.  The constructor keeps every point: the stored list is a
    rearrangement of the normalized input, of the same length, in
    ascending order of score with negatives before positives at equal
    scores. *)
Theorem constructor_sorts_points (raw : list (Qc * Z)) :
  let self := BinaryClassifierData.__init__ raw in
  data self ≡ₚ map _normalize_point raw
  ∧ __len__ self = length raw
  ∧ StronglySorted point_le (data self).
Proof.
  intros self. split; [apply init_data_perm|]. split; [apply init_length|].
  apply init_point_sorted.
Qed.

(** X7.  The totals the constructor stores: [total_positives] is the
    number of points whose label is greater than zero, [total_negatives]
    the number of the others, and together they are the size of the
    dataset. *)
Theorem constructor_counts_labels (raw : list (Qc * Z)) :
  let self := BinaryClassifierData.__init__ raw in
  total_positives self = count labeled_positive raw
  ∧ total_negatives self = count (λ p, negb (labeled_positive p)) raw
  ∧ (total_positives self + total_negatives self)%Z = Z.of_nat (__len__ self).
Proof.
  intros self. destruct (init_totals raw) as [Hp Hn]. fold self in Hp, Hn.
  split; [exact Hp|]. split; [exact Hn|].
  rewrite Hp, Hn, count_negb. unfold __len__, self. now rewrite init_length.
Qed.

Lemma init_of_perm (raw raw' : list (Qc * Z)) :
  raw ≡ₚ raw' → BinaryClassifierData.__init__ raw = BinaryClassifierData.__init__ raw'.
Proof.
  intros Hperm. unfold BinaryClassifierData.__init__.
  assert (sorted tuple_ltb (map _normalize_point raw)
          = sorted tuple_ltb (map _normalize_point raw')) as ->.
  { apply sorted_of_perm; [apply _|]. now apply Permutation_map. }
  rewrite !sum_count, !count_map.
  now rewrite (count_perm _ raw raw' Hperm).
Qed.

(** X8.  The dataset does not depend on the order in which the points
    are passed to the constructor. *)
Theorem constructor_ignores_input_order (raw raw' : list (Qc * Z)) :
  raw ≡ₚ raw' →
  BinaryClassifierData.__init__ raw = BinaryClassifierData.__init__ raw'.
Proof. apply init_of_perm. Qed.

Lemma constructor_ignores_input_order_witness :
  two_points ≡ₚ rev two_points
  ∧ BinaryClassifierData.__init__ two_points
    = BinaryClassifierData.__init__ (rev two_points).
Proof.
  assert (two_points ≡ₚ rev two_points) as H by apply Permutation_rev.
  exact (conj H (constructor_ignores_input_order _ _ H)).
Defined.

(** ** Indexing and iterating over a dataset *)

Lemma getitem_spec {A : Type} (l : list A) (i : Z) :
  let n := Z.of_nat (length l) in
  getitem l i
  = if decide (0 ≤ i < n)%Z then
      match l !! Z.to_nat i with Some v => Ok v | None => Raise IndexError end
    else if decide (- n ≤ i < 0)%Z then
      match l !! Z.to_nat (n + i) with Some v => Ok v | None => Raise IndexError end
    else Raise IndexError.
Proof.
  intros n. unfold getitem, py_index. fold n.
  destruct (Z.leb_spec 0 i), (Z.ltb_spec i n); cbn [andb];
    repeat case_decide; try lia; try reflexivity;
    destruct (Z.leb_spec (- n) i), (Z.ltb_spec i 0); cbn [andb];
    try lia; reflexivity.
Qed.

Lemma StronglySorted_lookup_lt {A : Type} (R : A → A → Prop) (l : list A) i j x y :
  StronglySorted R l → l !! i = Some x → l !! j = Some y → (i < j)%nat → R x y.
Proof.
  intros Hs. revert i j. induction Hs as [|z l Hl IH Hz]; intros i j Hi Hj Hlt.
  - discriminate.
  - destruct j as [|j]; [lia|]. destruct i as [|i]; simpl in Hi, Hj.
    + injection Hi as ->. rewrite Forall_forall in Hz.
      apply Hz. eapply list_elem_of_lookup_2; eauto.
    + apply (IH i j); [assumption..|lia].
Qed.

(** X9.  Indexing a dataset of N points.  An index from -N to N-1 gives a
    stored point, a negative index counting from the end; any other index
    raises [IndexError]; and the point at a higher position never comes
    before the point at a lower one in the order of the dataset. *)
Theorem dataset_indexing (raw : list (Qc * Z)) :
  let self := BinaryClassifierData.__init__ raw in
  let N := Z.of_nat (length raw) in
  (∀ i, (- N ≤ i < N)%Z → ∃ p, Sequence.__getitem__ self i = Ok p ∧ p ∈ data self)
  ∧ (∀ i, (i < - N ∨ N ≤ i)%Z → Sequence.__getitem__ self i = Raise IndexError)
  ∧ (∀ i, (0 ≤ i < N)%Z →
       Sequence.__getitem__ self (i - N) = Sequence.__getitem__ self i)
  ∧ (∀ i j p q, (0 ≤ i ≤ j)%Z →
       Sequence.__getitem__ self i = Ok p → Sequence.__getitem__ self j = Ok q →
       point_le p q).
Proof.
  intros self N.
  assert (Z.of_nat (length (data self)) = N) as Hlen.
  { unfold self, N. now rewrite init_length. }
  assert (∀ k, (0 ≤ k < N)%Z → ∃ p, data self !! Z.to_nat k = Some p) as Hin.
  { intros k Hk. apply lookup_lt_is_Some_2. lia. }
  assert (∀ k p, (0 ≤ k)%Z → Sequence.__getitem__ self k = Ok p →
                 data self !! Z.to_nat k = Some p) as Hget.
  { intros k p Hk. unfold Sequence.__getitem__. rewrite getitem_spec, Hlen.
    repeat case_decide; try lia; try discriminate.
    destruct (data self !! Z.to_nat k); [|discriminate]. congruence. }
  split; [|split; [|split]].
  - intros i Hi. unfold Sequence.__getitem__. rewrite getitem_spec, Hlen.
    repeat case_decide; try lia.
    + destruct (Hin i) as [p Hp]; [lia|]. rewrite Hp. exists p.
      split; [reflexivity|]. eapply list_elem_of_lookup_2; eauto.
    + destruct (Hin (N + i)%Z) as [p Hp]; [lia|]. rewrite Hp. exists p.
      split; [reflexivity|]. eapply list_elem_of_lookup_2; eauto.
  - intros i Hi. unfold Sequence.__getitem__. rewrite getitem_spec, Hlen.
    repeat case_decide; try lia. reflexivity.
  - intros i Hi. unfold Sequence.__getitem__. rewrite !getitem_spec, Hlen.
    repeat case_decide; try lia. now replace (N + (i - N))%Z with i by lia.
  - intros i j p q Hij Hp Hq.
    apply Hget in Hp; [|lia]. apply Hget in Hq; [|lia].
    destruct (decide (i = j)) as [->|Hne].
    + assert (p = q) as -> by congruence.
      split; [apply ltb_irrefl|tauto].
    + eapply StronglySorted_lookup_lt;
        [apply (init_point_sorted raw)|exact Hp|exact Hq|lia].
Qed.

Lemma iter_from_step (self : BinaryClassifierData.t) (fuel : nat) (i : Z) :
  Sequence.iter_from (S fuel) self i
  = match Sequence.__getitem__ self i with
    | Ok p => ps ← Sequence.iter_from fuel self (i + 1)%Z; Ok (p :: ps)
    | Raise IndexError => Ok []
    | Raise e => Raise e
    end.
Proof. reflexivity. Qed.

Lemma iter_from_drop (self : BinaryClassifierData.t) (n k : nat) :
  (k + n = length (data self))%nat →
  Sequence.iter_from (S n) self (Z.of_nat k) = Ok (drop k (data self)).
Proof.
  revert k. induction n as [|n IH]; intros k Hk; rewrite iter_from_step;
    unfold Sequence.__getitem__; rewrite getitem_spec, Nat2Z.id.
  - repeat case_decide; try lia. now rewrite drop_ge by lia.
  - repeat case_decide; try lia.
    destruct (lookup_lt_is_Some_2 (data self) k) as [p Hp]; [lia|]. rewrite Hp.
    replace (Z.of_nat k + 1)%Z with (Z.of_nat (S k)) by lia.
    rewrite IH by lia. cbn [mbind res_bind].
    now rewrite (drop_S _ _ _ Hp).
Qed.

(** X10.  A [for] loop over a dataset receives its points in stored
    order, and building a dataset from a dataset gives an equal one: the
    same points and the same two totals. *)
Theorem dataset_iteration_and_copy (raw : list (Qc * Z)) :
  let self := BinaryClassifierData.__init__ raw in
  Sequence.iter self = Ok (data self) ∧ Sequence.copy self = Ok self.
Proof.
  intros self.
  assert (Sequence.iter self = Ok (data self)) as Hiter.
  { unfold Sequence.iter, __len__.
    apply (iter_from_drop self (length (data self)) 0). lia. }
  split; [exact Hiter|].
  unfold Sequence.copy. rewrite Hiter. cbn [mbind res_bind].
  destruct (init_well_formed raw) as [_ Hp Hn _]. fold self in Hp, Hn.
  assert (BinaryClassifierData.sum (map (λ p : point, (0 <? Z.b2z p.2)%Z) (data self))
          = total_positives self) as ->.
  { rewrite sum_count, count_map, Hp. apply count_ext. now intros [s []]. }
  pose proof (count_negb is_pos (data self)) as Hsum.
  replace (Z.of_nat (length (data self)) - total_positives self)%Z
    with (total_negatives self).
  - now destruct self.
  - rewrite Hp, Hn. unfold is_neg.
    change (λ row : point, negb row.2) with (λ row, negb (is_pos row)). lia.
Qed.

(** ** The lookup, seen from its caller *)

Lemma lookup_init (raw : list (Qc * Z)) (t : pyfloat) :
  get_confusion_matrix (BinaryClassifierData.__init__ raw) t = Ok (spec_matrix raw t).
Proof.
  rewrite get_confusion_matrix_classify by apply init_well_formed.
  now rewrite classify_init.
Qed.

Lemma count_le {A : Type} (P Q : A → bool) (l : list A) :
  (∀ x, P x = true → Q x = true) → (count P l ≤ count Q l)%Z.
Proof.
  intros H. induction l as [|x l IH]; [reflexivity|].
  rewrite !count_cons. specialize (H x).
  destruct (P x), (Q x); simpl; lia || now discriminate H.
Qed.

Lemma count_zero {A : Type} (P : A → bool) (l : list A) :
  count P l = 0%Z ↔ Forall (λ x, P x = false) l.
Proof.
  induction l as [|x l IH]; [split; [constructor|reflexivity]|].
  rewrite count_cons, Forall_cons, <- IH.
  pose proof (count_nonneg P l).
  destruct (P x); simpl; intuition (discriminate || lia).
Qed.

Lemma score_at_or_above_below (t : pyfloat) (p : Qc * Z) :
  score_at_or_above t p = negb (score_below t p).
Proof. apply float_geb_ltb. Qed.

Lemma spec_matrix_marginals (raw : list (Qc * Z)) (t : pyfloat) :
  (tp (spec_matrix raw t) + fn (spec_matrix raw t))%Z = count labeled_positive raw
  ∧ (fp (spec_matrix raw t) + tn (spec_matrix raw t))%Z
    = count (λ p, negb (labeled_positive p)) raw.
Proof.
  unfold spec_matrix. cbn [tp fp tn fn].
  rewrite (count_cut labeled_positive (score_below t) raw).
  rewrite (count_cut (λ p, negb (labeled_positive p)) (score_below t) raw).
  rewrite (count_ext (λ p, score_at_or_above t p && labeled_positive p)
             (λ p, negb (score_below t p) && labeled_positive p))
    by (intros; now rewrite score_at_or_above_below).
  rewrite (count_ext (λ p, score_at_or_above t p && negb (labeled_positive p))
             (λ p, negb (score_below t p) && negb (labeled_positive p)))
    by (intros; now rewrite score_at_or_above_below).
  split; lia.
Qed.

(** X11.  The lookup splits each class between the two predictions: its
    counts are non-negative, [tp + fn] is the dataset's
    [total_positives] and [fp + tn] its [total_negatives], at every
    threshold. *)
Theorem lookup_splits_the_classes (raw : list (Qc * Z)) (t : pyfloat) :
  let self := BinaryClassifierData.__init__ raw in
  ∃ m, get_confusion_matrix self t = Ok m
       ∧ (tp m + fn m)%Z = total_positives self
       ∧ (fp m + tn m)%Z = total_negatives self
       ∧ (0 ≤ tp m)%Z ∧ (0 ≤ fp m)%Z ∧ (0 ≤ tn m)%Z ∧ (0 ≤ fn m)%Z.
Proof.
  intros self. exists (spec_matrix raw t). split; [apply lookup_init|].
  destruct (init_totals raw) as [Hp Hn]. fold self in Hp, Hn.
  destruct (spec_matrix_marginals raw t) as [Hmp Hmn].
  rewrite Hp, Hn. repeat split; try assumption; apply count_nonneg.
Qed.

(** X12.  Raising the threshold never moves a point towards the positive
    prediction: at a threshold that is not lower, [tp] and [fp] are not
    greater and [tn] and [fn] are not smaller. *)
Theorem lookup_monotone_in_threshold (raw : list (Qc * Z)) (t t' : pyfloat) :
  let self := BinaryClassifierData.__init__ raw in
  float_ltb t' t = false →
  ∃ m m', get_confusion_matrix self t = Ok m
          ∧ get_confusion_matrix self t' = Ok m'
          ∧ (tp m' ≤ tp m)%Z ∧ (fp m' ≤ fp m)%Z
          ∧ (tn m ≤ tn m')%Z ∧ (fn m ≤ fn m')%Z.
Proof.
  intros self Hle. exists (spec_matrix raw t), (spec_matrix raw t').
  split; [apply lookup_init|]. split; [apply lookup_init|].
  assert (∀ p, score_below t p = true → score_below t' p = true) as Hlo.
  { intros p Hp. exact (float_lt_le_trans _ _ _ Hp Hle). }
  assert (∀ p, score_at_or_above t' p = true → score_at_or_above t p = true) as Hhi.
  { intros p. rewrite !score_at_or_above_below, !negb_true_iff.
    intros Hp. specialize (Hlo p). destruct (score_below t p); [|reflexivity].
    rewrite Hlo in Hp by reflexivity. discriminate. }
  unfold spec_matrix. cbn [tp fp tn fn].
  repeat split; apply count_le; intros p; rewrite !andb_true_iff;
    intros [H1 H2]; auto.
Qed.

Lemma lookup_monotone_in_threshold_witness :
  float_ltb (Fin (tenths 5)) (Fin (tenths 2)) = false
  ∧ ∃ m m', get_confusion_matrix (BinaryClassifierData.__init__ docstring_data)
              (Fin (tenths 2)) = Ok m
            ∧ get_confusion_matrix (BinaryClassifierData.__init__ docstring_data)
                (Fin (tenths 5)) = Ok m'
            ∧ (tp m' ≤ tp m)%Z ∧ (fp m' ≤ fp m)%Z
            ∧ (tn m ≤ tn m')%Z ∧ (fn m ≤ fn m')%Z.
Proof.
  assert (float_ltb (Fin (tenths 5)) (Fin (tenths 2)) = false) as H
    by (vm_compute; reflexivity).
  exact (conj H (lookup_monotone_in_threshold docstring_data _ _ H)).
Defined.

Lemma spec_matrix_none_negative (raw : list (Qc * Z)) (t : pyfloat) :
  tn (spec_matrix raw t) = 0%Z ∧ fn (spec_matrix raw t) = 0%Z
  ↔ Forall (λ p, score_below t p = false) raw.
Proof.
  unfold spec_matrix. cbn [tn fn]. rewrite !count_zero, !Forall_forall.
  split.
  - intros [H1 H2] p Hin. specialize (H1 p Hin). specialize (H2 p Hin).
    destruct (score_below t p), (labeled_positive p); simpl in *; congruence.
  - intros H. split; intros p Hin; now rewrite (H p Hin).
Qed.

Lemma spec_matrix_none_positive (raw : list (Qc * Z)) (t : pyfloat) :
  tp (spec_matrix raw t) = 0%Z ∧ fp (spec_matrix raw t) = 0%Z
  ↔ Forall (λ p, score_below t p = true) raw.
Proof.
  unfold spec_matrix. cbn [tp fp]. rewrite !count_zero, !Forall_forall.
  split.
  - intros [H1 H2] p Hin. specialize (H1 p Hin). specialize (H2 p Hin).
    rewrite score_at_or_above_below in H1, H2.
    destruct (score_below t p), (labeled_positive p); simpl in *; congruence.
  - intros H. split; intros p Hin;
      now rewrite score_at_or_above_below, (H p Hin).
Qed.

(** X13.  The two extremes of the lookup.  It returns the all-positive
    matrix ([tp = total_positives], [fp = total_negatives], [tn = fn = 0])
    exactly when no score lies below the threshold, and the all-negative
    matrix exactly when every score lies below it, as at [inf]. *)
Theorem lookup_extremes (raw : list (Qc * Z)) (t : pyfloat) :
  let self := BinaryClassifierData.__init__ raw in
  (get_confusion_matrix self t
   = Ok {| tp := total_positives self; fp := total_negatives self; tn := 0; fn := 0 |}
   ↔ Forall (λ p, score_below t p = false) raw)
  ∧ (get_confusion_matrix self t = Ok (all_negative self)
     ↔ Forall (λ p, score_below t p = true) raw)
  ∧ get_confusion_matrix self Inf = Ok (all_negative self).
Proof.
  cbv zeta.
  destruct (init_totals raw) as [Hp Hn].
  pose proof (spec_matrix_marginals raw t) as [Hmp Hmn].
  pose proof (spec_matrix_none_negative raw t) as Hlow.
  pose proof (spec_matrix_none_positive raw t) as Hhigh.
  split; [|split].
  - rewrite lookup_init, <- Hlow. split.
    + intros Heq.
      assert (spec_matrix raw t
              = {| tp := total_positives (BinaryClassifierData.__init__ raw);
                   fp := total_negatives (BinaryClassifierData.__init__ raw);
                   tn := 0; fn := 0 |}) as -> by congruence.
      simpl. tauto.
    + intros [H1 H2]. f_equal. unfold all_negative.
      destruct (spec_matrix raw t). cbn [tp fp tn fn] in *. f_equal; lia.
  - rewrite lookup_init, <- Hhigh. split.
    + intros Heq.
      assert (spec_matrix raw t = all_negative (BinaryClassifierData.__init__ raw))
        as -> by congruence.
      simpl. tauto.
    + intros [H1 H2]. f_equal. unfold all_negative.
      destruct (spec_matrix raw t). cbn [tp fp tn fn] in *. f_equal; lia.
  - rewrite get_confusion_matrix_classify by apply init_well_formed.
    now rewrite classify_inf by apply init_well_formed.
Qed.


(** ** The metrics of a lookup *)

Lemma float_div_ok_unit (a b : Z) (q : Qc) :
  (0 ≤ a ≤ b)%Z → float_div a b = Ok q → (Q2Qc 0 <= q)%Qc ∧ (q <= Q2Qc 1)%Qc.
Proof.
  intros Hab Hq. destruct (Z.eq_dec b 0%Z) as [Hz|Hnz].
  - rewrite (proj2 (float_div_raises a b) Hz) in Hq. discriminate.
  - destruct (float_div_unit a b Hab Hnz) as (q' & Hq' & Hbounds). congruence.
Qed.

(** X14.  Which rates of a lookup exist depends on the dataset alone,
    not on the threshold: [accuracy] raises [ZeroDivisionError] exactly on
    the empty dataset, [recall] exactly when there is no positive point,
    [fpr] and [tnr] exactly when there is no negative point. *)
Theorem roc_rates_defined_by_dataset (raw : list (Qc * Z)) (t : pyfloat) :
  let self := BinaryClassifierData.__init__ raw in
  ∃ m, get_confusion_matrix self t = Ok m
       ∧ (accuracy m = Raise ZeroDivisionError ↔ raw = [])
       ∧ (recall m = Raise ZeroDivisionError ↔ total_positives self = 0%Z)
       ∧ (fpr m = Raise ZeroDivisionError ↔ total_negatives self = 0%Z)
       ∧ (tnr m = Raise ZeroDivisionError ↔ total_negatives self = 0%Z).
Proof.
  cbv zeta. exists (spec_matrix raw t). split; [apply lookup_init|].
  destruct (init_totals raw) as [Hp Hn].
  destruct (spec_matrix_marginals raw t) as [Hmp Hmn].
  pose proof (count_negb labeled_positive raw) as Hlen.
  unfold accuracy, recall, fpr, tnr. cbv zeta. rewrite !float_div_raises, Hp, Hn.
  repeat split; try lia.
  - intros H. destruct raw; [reflexivity|]. simpl length in Hlen. lia.
  - intros ->. reflexivity.
Qed.

(** X15.  The two rates that depend on the threshold: on a lookup's
    matrix [fdr] raises [ZeroDivisionError] exactly when every score lies
    below the threshold (and there [precision] is 1.0), [npv] exactly
    when no score does; [fdr] therefore always raises at [inf]. *)
Theorem fdr_npv_defined_by_threshold (raw : list (Qc * Z)) (t : pyfloat) :
  let self := BinaryClassifierData.__init__ raw in
  (∃ m, get_confusion_matrix self t = Ok m
        ∧ (fdr m = Raise ZeroDivisionError ↔ Forall (λ p, score_below t p = true) raw)
        ∧ (fdr m = Raise ZeroDivisionError → precision m = Ok (Q2Qc 1))
        ∧ (npv m = Raise ZeroDivisionError ↔ Forall (λ p, score_below t p = false) raw))
  ∧ (∃ m, get_confusion_matrix self Inf = Ok m ∧ fdr m = Raise ZeroDivisionError).
Proof.
  cbv zeta.
  assert (∀ u, (fdr (spec_matrix raw u) = Raise ZeroDivisionError
                ↔ Forall (λ p, score_below u p = true) raw)) as Hfdr.
  { intros u. rewrite <- spec_matrix_none_positive. unfold fdr.
    rewrite float_div_raises.
    pose proof (count_nonneg (λ p, score_at_or_above u p && labeled_positive p) raw).
    pose proof (count_nonneg
                  (λ p, score_at_or_above u p && negb (labeled_positive p)) raw).
    unfold spec_matrix in *. cbn [tp fp] in *. lia. }
  split.
  - exists (spec_matrix raw t). split; [apply lookup_init|].
    split; [apply Hfdr|]. split.
    + unfold fdr, precision. rewrite float_div_raises. intros H.
      now rewrite (proj2 (float_div_raises _ _)) by lia.
    + rewrite <- spec_matrix_none_negative. unfold npv. rewrite float_div_raises.
      pose proof (count_nonneg (λ p, score_below t p && labeled_positive p) raw).
      pose proof (count_nonneg
                    (λ p, score_below t p && negb (labeled_positive p)) raw).
      unfold spec_matrix in *. cbn [tn fn] in *. lia.
  - exists (spec_matrix raw Inf). split; [apply lookup_init|].
    apply Hfdr. apply Forall_forall. intros p _. reflexivity.
Qed.

(** X16.  On the matrix of a lookup every rate that is defined lies
    between 0 and 1. *)
Theorem lookup_rates_in_unit_interval (raw : list (Qc * Z)) (t : pyfloat) :
  ∃ m, get_confusion_matrix (BinaryClassifierData.__init__ raw) t = Ok m
       ∧ Forall (λ rate : BinaryConfusionMatrix.t → res Qc,
                   ∀ q, rate m = Ok q → (Q2Qc 0 <= q)%Qc ∧ (q <= Q2Qc 1)%Qc)
           [accuracy; fdn; fdp; fdr; fpr; npv; precision; recall; tnr].
Proof.
  exists (spec_matrix raw t). split; [apply lookup_init|].
  pose proof (count_nonneg (λ p, score_at_or_above t p && labeled_positive p) raw).
  pose proof (count_nonneg (λ p, score_at_or_above t p && negb (labeled_positive p)) raw).
  pose proof (count_nonneg (λ p, score_below t p && labeled_positive p) raw).
  pose proof (count_nonneg (λ p, score_below t p && negb (labeled_positive p)) raw).
  repeat first [apply Forall_nil_2 | apply Forall_cons_2]; intros q;
    unfold accuracy, fdn, fdp, fdr, fpr, npv, precision, recall, tnr, spec_matrix;
    cbn [tp fp tn fn]; cbv zeta;
    try (apply float_div_ok_unit; lia).
  match goal with |- context [float_div ?a ?b] =>
    destruct (Z.eq_dec b 0%Z) as [Hz|Hnz];
    [rewrite (proj2 (float_div_raises a b) Hz)|
     destruct (float_div_unit a b) as (q' & -> & Hq'); [lia|exact Hnz|]]
  end.
  - intros [= <-]. now split.
  - now intros [= <-].
Qed.

(** ** The sweep, seen from its caller *)

Lemma init_data_nil (raw : list (Qc * Z)) :
  data (BinaryClassifierData.__init__ raw) = [] ↔ raw = [].
Proof.
  split.
  - intros H. apply (f_equal length) in H. rewrite init_length in H.
    now destruct raw.
  - intros ->. reflexivity.
Qed.

(** X17.  What a sweep visits.  On an empty dataset, or when no threshold
    is left after resolving the argument, nothing is yielded.  Otherwise
    the thresholds of the yielded pairs are the resolved thresholds, which
    ascend strictly, followed by [inf]: one pair per distinct threshold
    and one more.  In both cases the generator is exhausted afterwards. *)
Theorem sweep_visits_resolved_thresholds (raw : list (Qc * Z)) arg h :
  let self := BinaryClassifierData.__init__ raw in
  let ths := resolve_thresholds self arg in
  let run := iter_confusion_matrices self arg h in
  (raw = [] ∨ ths = [] → run = ([], Finished, h))
  ∧ (raw ≠ [] → ths ≠ [] → map y_threshold run.1.1 = ths ++ [Inf])
  ∧ StronglySorted (λ a b, float_ltb a b = true) ths
  ∧ run.1.2 = Finished.
Proof.
  intros self ths run.
  pose proof (init_well_formed raw) as Hwf. fold self in Hwf.
  split; [|split; [|split]].
  - intros [->|Hths]; apply iter_confusion_matrices_empty; [now left|now right].
  - intros Hraw Hths. subst run. fold ths.
    destruct ths as [|t0 ths'] eqn:Hres; [congruence|].
    rewrite (iter_confusion_matrices_run self arg h t0 ths' Hwf).
    + cbn [fst snd map y_threshold].
      destruct (sweep_frame self (ths' ++ [Inf]) 0 (next_ref h)
                  (alloc (classify (data self) t0) h).2) as (-> & _).
      * simpl. lia.
      * reflexivity.
    + unfold self. now rewrite init_data_nil.
    + exact Hres.
  - apply resolve_thresholds_strict.
  - apply iter_confusion_matrices_finishes.
Qed.

Lemma sweep_matches_lookup (raw : list (Qc * Z)) arg h :
  let self := BinaryClassifierData.__init__ raw in
  starts_at_bottom self arg = true →
  Forall (λ y, get_confusion_matrix self (y_threshold y) = Ok (y_matrix y))
    (iter_confusion_matrices self arg h).1.1.
Proof.
  intros self Hstart.
  pose proof (init_well_formed raw) as Hwf. fold self in Hwf.
  destruct raw as [|p raw'] eqn:Hraw.
  - subst self. rewrite iter_confusion_matrices_empty by now left. constructor.
  - apply iter_confusion_matrices_aligned; try assumption.
    unfold self. rewrite init_data_nil. discriminate.
Qed.

(** X18.  When the resolved thresholds are not empty and no score lies
    below the lowest of them, every pair the sweep yields carries, on
    receipt, the matrix that [get_confusion_matrix] returns at the pair's
    threshold. *)
Theorem sweep_from_bottom_matches_lookup (raw : list (Qc * Z)) arg h :
  let self := BinaryClassifierData.__init__ raw in
  starts_at_bottom self arg = true →
  Forall (λ y, get_confusion_matrix self (y_threshold y) = Ok (y_matrix y))
    (iter_confusion_matrices self arg h).1.1.
Proof. exact (sweep_matches_lookup raw arg h). Qed.

Lemma sweep_from_bottom_matches_lookup_witness :
  starts_at_bottom (BinaryClassifierData.__init__ docstring_data) (ThresholdsInt 5) = true
  ∧ Forall (λ y, get_confusion_matrix (BinaryClassifierData.__init__ docstring_data)
                   (y_threshold y) = Ok (y_matrix y))
      (iter_confusion_matrices (BinaryClassifierData.__init__ docstring_data)
         (ThresholdsInt 5) empty_heap).1.1.
Proof.
  assert (starts_at_bottom (BinaryClassifierData.__init__ docstring_data)
            (ThresholdsInt 5) = true) as H by (vm_compute; reflexivity).
  exact (conj H (sweep_from_bottom_matches_lookup docstring_data _ empty_heap H)).
Defined.

(** X19.  With [thresholds=None] the sweep is the lookup at every score
    of the dataset and at [inf]: each pair carries, on receipt, the matrix
    that [get_confusion_matrix] returns at its threshold. *)
Theorem default_sweep_matches_lookup (raw : list (Qc * Z)) h :
  let self := BinaryClassifierData.__init__ raw in
  Forall (λ y, get_confusion_matrix self (y_threshold y) = Ok (y_matrix y))
    (iter_confusion_matrices self ThresholdsNone h).1.1.
Proof.
  intros self. destruct raw as [|p raw'] eqn:Hraw.
  - subst self. rewrite iter_confusion_matrices_empty by now left. constructor.
  - apply sweep_matches_lookup. apply none_starts_at_bottom. discriminate.
Qed.

Lemma sweep_refs_fresh (self : BinaryClassifierData.t) ths r result h :
  (result < next_ref h)%nat →
  NoDup (map y_ref (sweep self ths r result h).1).
Proof.
  revert r h. induction ths as [|t ths IH]; intros r h Hres.
  - constructor.
  - destruct (sweep_step self t ths r result h Hres)
      as (h2 & Hnext & _ & _ & _ & ->).
    set (r' := (r + _)%nat).
    destruct (sweep_frame self ths r' result h2) as (_ & _ & _ & Hys); [lia|].
    cbn [fst map y_ref]. apply NoDup_cons. split; [|apply IH; lia].
    intros Hin. apply list_elem_of_fmap in Hin as (y & Hy & Hin).
    rewrite Forall_forall in Hys. destruct (Hys y Hin) as [Hrange _]. lia.
Qed.

(** X20.  What a sweep does to the store.  Matrices that existed before
    the call are left as they were; every yielded pair refers to an object
    created by the call, and no two pairs share one; every pair after the
    first still holds, when the sweep is over, the counts it was yielded
    with; and the first pair is yielded with the lookup's matrix for the
    lowest threshold. *)
Theorem sweep_store_discipline (raw : list (Qc * Z)) arg h :
  let self := BinaryClassifierData.__init__ raw in
  let run := iter_confusion_matrices self arg h in
  (∀ b, (b < next_ref h)%nat → deref run.2 b = deref h b)
  ∧ Forall (λ y, (next_ref h ≤ y_ref y < next_ref run.2)%nat) run.1.1
  ∧ NoDup (map y_ref run.1.1)
  ∧ Forall (λ y, deref run.2 (y_ref y) = y_matrix y) (tail run.1.1)
  ∧ (∀ y, head run.1.1 = Some y →
       get_confusion_matrix self (y_threshold y) = Ok (y_matrix y)).
Proof.
  intros self run.
  pose proof (init_well_formed raw) as Hwf. fold self in Hwf.
  assert (run = ([], Finished, h)
          ∨ ∃ t0 ths,
              let r0 := next_ref h in
              let h0 := (alloc (classify (data self) t0) h).2 in
              run = (Yielded t0 r0 h0 :: (sweep self (ths ++ [Inf]) 0 r0 h0).1,
                     Finished, (sweep self (ths ++ [Inf]) 0 r0 h0).2)) as [->|Hrun].
  { destruct (resolve_thresholds self arg) as [|t0 ths] eqn:Hres.
    { left. apply iter_confusion_matrices_empty. now right. }
    assert (data self = [] ∨ data self ≠ []) as [Hdata|Hdata]
      by (destruct (data self); [left|right]; congruence).
    { left. apply iter_confusion_matrices_empty. now left. }
    right. exists t0, ths. now apply iter_confusion_matrices_run. }
  { cbn [fst snd tail head map]. repeat split; try constructor. discriminate. }
  destruct Hrun as (t0 & ths & ->). cbn [fst snd tail head map y_ref].
  set (r0 := next_ref h).
  set (h0 := (alloc (classify (data self) t0) h).2).
  assert (r0 < next_ref h0)%nat as Hr0 by (subst h0 r0; simpl; lia).
  assert (next_ref h0 = S r0) as Hnext by reflexivity.
  assert (deref h0 r0 = classify (data self) t0) as Hm.
  { subst h0 r0. simpl. case_decide; congruence. }
  destruct (sweep_frame self (ths ++ [Inf]) 0 r0 h0 Hr0) as (_ & Hle & Hframe & Hys).
  rewrite Forall_forall in Hys.
  split; [|split; [|split; [|split]]].
  - intros b Hb. rewrite Hframe by (fold r0 in Hb; lia).
    subst h0 r0. simpl. case_decide; [lia|reflexivity].
  - constructor; [cbn [y_ref]; lia|].
    apply Forall_forall. intros y Hy. destruct (Hys y Hy) as [Hrange _]. lia.
  - apply NoDup_cons. split; [|now apply sweep_refs_fresh].
    intros Hin. apply list_elem_of_fmap in Hin as (y & Hy & Hin).
    destruct (Hys y Hin) as [Hrange _]. lia.
  - apply Forall_forall. intros y Hy. now destruct (Hys y Hy).
  - intros y [= <-]. cbn [y_threshold]. unfold y_matrix. cbn [y_ref y_heap].
    rewrite Hm. now apply get_confusion_matrix_classify.
Qed.

(** ** Resolving the thresholds *)

Lemma strict_is_NoDup {A : Type} (ltb : A → A → bool) `{!StrictTotal ltb} (l : list A) :
  StronglySorted (λ a b, ltb a b = true) l → NoDup l.
Proof.
  induction 1 as [|x l Hl IH Hx]; constructor; [|exact IH].
  intros Hin. rewrite Forall_forall in Hx. specialize (Hx x Hin).
  now rewrite ltb_irrefl in Hx.
Qed.

(** [sorted(set(l))] depends on the members of [l] only. *)
Lemma sorted_set_members (l l' : list pyfloat) :
  (∀ x, x ∈ l ↔ x ∈ l') → sorted float_ltb (set_ l) = sorted float_ltb (set_ l').
Proof.
  intros H. apply sorted_of_perm; [apply _|]. unfold set_.
  apply NoDup_Permutation; try apply NoDup_remove_dups.
  intros x. now rewrite !elem_of_remove_dups.
Qed.



Lemma resolve_iter_members (self : BinaryClassifierData.t) (l : list pyfloat) (x : pyfloat) :
  x ∈ resolve_thresholds self (ThresholdsIter l) ↔ x ∈ l.
Proof.
  unfold resolve_thresholds, set_. rewrite sorted_perm by apply _.
  apply elem_of_remove_dups.
Qed.

Lemma iter_depends_on_resolved (self : BinaryClassifierData.t) arg arg' h :
  well_formed self →
  resolve_thresholds self arg = resolve_thresholds self arg' →
  iter_confusion_matrices self arg h = iter_confusion_matrices self arg' h.
Proof.
  intros Hwf Heq.
  destruct (resolve_thresholds self arg') as [|t0 ths] eqn:Hres.
  { now rewrite !iter_confusion_matrices_empty by now right. }
  assert (data self = [] ∨ data self ≠ []) as [Hdata|Hdata]
    by (destruct (data self); [left|right]; congruence).
  { now rewrite !iter_confusion_matrices_empty by now left. }
  now rewrite (iter_confusion_matrices_run self arg h t0 ths),
    (iter_confusion_matrices_run self arg' h t0 ths).
Qed.

(** X22.  An explicit collection of thresholds counts as a set: the
    resolved thresholds are its members, each once, and two collections
    with the same members, in whatever order and multiplicity, give the
    same resolved thresholds and the same sweep. *)
Theorem explicit_thresholds_are_a_set (raw : list (Qc * Z)) (l l' : list pyfloat) h :
  let self := BinaryClassifierData.__init__ raw in
  (∀ x, x ∈ l ↔ x ∈ l') →
  (∀ x, x ∈ resolve_thresholds self (ThresholdsIter l) ↔ x ∈ l)
  ∧ NoDup (resolve_thresholds self (ThresholdsIter l))
  ∧ resolve_thresholds self (ThresholdsIter l)
    = resolve_thresholds self (ThresholdsIter l')
  ∧ iter_confusion_matrices self (ThresholdsIter l) h
    = iter_confusion_matrices self (ThresholdsIter l') h.
Proof.
  intros self Hsame.
  assert (resolve_thresholds self (ThresholdsIter l)
          = resolve_thresholds self (ThresholdsIter l')) as Heq.
  { unfold resolve_thresholds. now apply sorted_set_members. }
  split; [apply resolve_iter_members|]. split.
  - apply (strict_is_NoDup float_ltb), resolve_thresholds_strict.
  - split; [exact Heq|].
    apply iter_depends_on_resolved; [apply init_well_formed|exact Heq].
Qed.

Lemma explicit_thresholds_are_a_set_witness :
  (∀ x, x ∈ [Fin (tenths 5); Fin (tenths 1); Fin (tenths 5)]
        ↔ x ∈ [Fin (tenths 1); Fin (tenths 5)])
  ∧ (∀ x, x ∈ resolve_thresholds (BinaryClassifierData.__init__ two_points)
                (ThresholdsIter [Fin (tenths 5); Fin (tenths 1); Fin (tenths 5)])
          ↔ x ∈ [Fin (tenths 5); Fin (tenths 1); Fin (tenths 5)])
  ∧ NoDup (resolve_thresholds (BinaryClassifierData.__init__ two_points)
             (ThresholdsIter [Fin (tenths 5); Fin (tenths 1); Fin (tenths 5)]))
  ∧ resolve_thresholds (BinaryClassifierData.__init__ two_points)
      (ThresholdsIter [Fin (tenths 5); Fin (tenths 1); Fin (tenths 5)])
    = resolve_thresholds (BinaryClassifierData.__init__ two_points)
        (ThresholdsIter [Fin (tenths 1); Fin (tenths 5)])
  ∧ iter_confusion_matrices (BinaryClassifierData.__init__ two_points)
      (ThresholdsIter [Fin (tenths 5); Fin (tenths 1); Fin (tenths 5)]) empty_heap
    = iter_confusion_matrices (BinaryClassifierData.__init__ two_points)
        (ThresholdsIter [Fin (tenths 1); Fin (tenths 5)]) empty_heap.
Proof.
  assert (∀ x, x ∈ [Fin (tenths 5); Fin (tenths 1); Fin (tenths 5)]
               ↔ x ∈ [Fin (tenths 1); Fin (tenths 5)]) as H.
  { intros x. rewrite !elem_of_cons, !elem_of_nil. tauto. }
  exact (conj H (explicit_thresholds_are_a_set two_points _ _ empty_heap H)).
Defined.


(** ** False positives and false negatives along a sweep *)

Lemma sweep_monotone_errors (self : BinaryClassifierData.t) ths r result h :
  (result < next_ref h)%nat →
  StronglySorted (leb_of float_ltb) ths →
  Forall (λ y, (fp (y_matrix y) ≤ fp (deref h result))%Z
               ∧ (fn (deref h result) ≤ fn (y_matrix y))%Z)
    (sweep self ths r result h).1
  ∧ StronglySorted later_errors (sweep self ths r result h).1.
Proof.
  intros Hres Hsorted. revert r h Hres.
  induction Hsorted as [|t ths Hsorted IH Ht]; intros r h Hres.
  - simpl. split; constructor.
  - destruct (sweep_step self t ths r result h Hres)
      as (h2 & Hnext & Ha & Hc & Hother & ->).
    set (r' := (r + _)%nat) in *.
    destruct (sweep_frame self ths r' result h2) as (Hths & _); [lia|].
    destruct (IH r' h2) as (Hbound & Hlater); [lia|].
    pose proof (count_nonneg is_pos (passed t (drop r (data self)))) as Hp.
    pose proof (count_nonneg is_neg (passed t (drop r (data self)))) as Hn.
    rewrite Ha, moves_counts in Hbound. cbn [fp fn] in Hbound.
    cbn [fst]. split.
    + constructor.
      * unfold y_matrix. cbn [y_ref y_heap]. rewrite Hc, moves_counts. simpl. lia.
      * eapply Forall_impl; [exact Hbound|]. simpl. intros y. lia.
    + constructor; [exact Hlater|].
      rewrite <- Hths in Ht. rewrite Forall_fmap in Ht.
      rewrite Forall_forall in Ht, Hbound. apply Forall_forall. intros y Hy.
      split; [exact (Ht y Hy)|].
      unfold y_matrix at 2 3. cbn [y_ref y_heap]. rewrite Hc, moves_counts.
      cbn [fp fn]. specialize (Hbound y Hy). lia.
Qed.

Lemma iter_confusion_matrices_later_errors (raw : list (Qc * Z)) arg h :
  StronglySorted later_errors
    (iter_confusion_matrices (BinaryClassifierData.__init__ raw) arg h).1.1.
Proof.
  set (self := BinaryClassifierData.__init__ raw).
  pose proof (init_well_formed raw) as Hwf. fold self in Hwf.
  destruct (resolve_thresholds self arg) as [|t0 ths] eqn:Hres.
  { rewrite iter_confusion_matrices_empty by (right; exact Hres). constructor. }
  assert (data self = [] ∨ data self ≠ []) as [Hdata|Hdata]
    by (destruct (data self); [left|right]; congruence).
  { rewrite iter_confusion_matrices_empty by (left; exact Hdata). constructor. }
  rewrite (iter_confusion_matrices_run self arg h t0 ths Hwf) by assumption.
  cbn [fst snd].
  set (r0 := next_ref h).
  set (h0 := (alloc (classify (data self) t0) h).2).
  assert (r0 < next_ref h0)%nat as Hr0 by (subst h0 r0; simpl; lia).
  pose proof (resolve_thresholds_strict self arg) as Hstrict.
  rewrite Hres in Hstrict.
  pose proof (strict_then_inf _ Hstrict) as Hsorted.
  change ((t0 :: ths) ++ [Inf]) with (t0 :: (ths ++ [Inf])) in Hsorted.
  apply StronglySorted_inv in Hsorted as [Hsorted Ht0].
  destruct (sweep_monotone_errors self (ths ++ [Inf]) 0 r0 h0 Hr0 Hsorted)
    as (Hbound & Hlater).
  destruct (sweep_frame self (ths ++ [Inf]) 0 r0 h0 Hr0) as (Hths & _).
  constructor; [exact Hlater|].
  rewrite <- Hths, Forall_fmap in Ht0.
  rewrite Forall_forall in Ht0, Hbound. apply Forall_forall. intros y Hy.
  split; [exact (Ht0 y Hy)|]. exact (Hbound y Hy).
Qed.

(** X23.  Across a sweep, between a yielded pair and one with a strictly
    greater threshold the yielded [fp] does not increase and the yielded
    [fn] does not decrease, whatever the [thresholds] argument. *)
Theorem sweep_fp_falls_fn_rises (raw : list (Qc * Z)) arg h (y1 y2 : yielded) :
  let ys := (iter_confusion_matrices (BinaryClassifierData.__init__ raw) arg h).1.1 in
  y1 ∈ ys → y2 ∈ ys →
  float_ltb (y_threshold y1) (y_threshold y2) = true →
  (fp (y_matrix y2) ≤ fp (y_matrix y1))%Z ∧ (fn (y_matrix y1) ≤ fn (y_matrix y2))%Z.
Proof.
  intros ys H1 H2 Hlt.
  destruct (StronglySorted_pairs later_errors ys y1 y2) as [->|[Hl|Hl]]; try assumption.
  - apply iter_confusion_matrices_later_errors.
  - now rewrite ltb_irrefl in Hlt.
  - apply Hl.
  - destruct Hl as [Hle _]. unfold leb_of in Hle. congruence.
Qed.

Lemma sweep_fp_falls_fn_rises_witness :
  example_pair 0 ∈ example_sweep
  ∧ example_pair 1 ∈ example_sweep
  ∧ float_ltb (y_threshold (example_pair 0)) (y_threshold (example_pair 1)) = true
  ∧ (fp (y_matrix (example_pair 1)) ≤ fp (y_matrix (example_pair 0)))%Z
  ∧ (fn (y_matrix (example_pair 0)) ≤ fn (y_matrix (example_pair 1)))%Z.
Proof.
  assert (example_pair 0 ∈ example_sweep) as H1.
  { apply list_elem_of_lookup. exists 0%nat. vm_compute. reflexivity. }
  assert (example_pair 1 ∈ example_sweep) as H2.
  { apply list_elem_of_lookup. exists 1%nat. vm_compute. reflexivity. }
  assert (float_ltb (y_threshold (example_pair 0)) (y_threshold (example_pair 1)) = true)
    as H3 by (vm_compute; reflexivity).
  exact (conj H1 (conj H2 (conj H3
    (sweep_fp_falls_fn_rises two_points ThresholdsNone empty_heap
       (example_pair 0) (example_pair 1) H1 H2 H3)))).
Defined.
